(** * The symptom-checker front end (frontend/app.js)

    A shallow embedding of the presentation code of the symptom checker:
    the renderer [buildResultHTML], the typing-effect driver [typeResult]
    with its interval timers, the history sidebar ([loadHistory],
    [loadResultById]) and the submit handler of the symptom form.

    JavaScript strings are sequences of UTF-16 code units, JSON replies are
    values of the dynamically typed [Value], and an operation that raises a
    JavaScript exception returns [Throw].  What the browser contributes
    (number and date formatting, Unicode case tables, the HTML parser
    behind [innerHTML]) is a [Host]. *)

From Stdlib Require Import ZArith NArith Lia.
From Stdlib Require Import Floats.PrimFloat Floats.FloatOps Floats.SpecFloat.
From stdpp Require Import base option list strings pretty gmap.

Set Default Proof Using "Type".

(** ** JavaScript strings *)

(** A string is the list of its UTF-16 code units; [s.length] is [length]
    and [s.slice(0, n)] is [take n]. *)
Abbreviation codeunit := N (only parsing).
Abbreviation jsstring := (list N) (only parsing).

(** The code units of a literal made of ASCII characters. *)
Definition lit (s : string) : jsstring :=
  (fun a => Ascii.N_of_ascii a) <$> String.list_ascii_of_string s.

Definition dq : codeunit := 34%N.   (* the double quote *)
Definition nl : codeunit := 10%N.   (* line feed *)
Definition sp : codeunit := 32%N.   (* space *)

(** A template line: the line break that ends the previous line, the
    indentation, the text. *)
Definition line (indent : nat) (s : jsstring) : jsstring :=
  nl :: replicate indent sp ++ s.

(** The emoji of the templates, as surrogate pairs or single units. *)
Definition siren : jsstring := [55357; 57000]%N.        (* U+1F6A8 *)
Definition stethoscope : jsstring := [55358; 56954]%N.  (* U+1FA7A *)
Definition compass : jsstring := [55358; 56813]%N.      (* U+1F9ED *)
Definition crossMark : jsstring := [10060]%N.           (* U+274C *)
Definition hourglass : jsstring := [9203]%N.            (* U+23F3 *)
Definition warningSign : jsstring := [9888; 65039]%N.   (* U+26A0 U+FE0F *)

(** The longest prefix whose units all pass a test. *)
Fixpoint takeWhileUnit (keep : codeunit -> bool) (s : jsstring) : jsstring :=
  match s with
  | c :: rest => if keep c then c :: takeWhileUnit keep rest else []
  | [] => []
  end.

Definition isAscii (s : jsstring) : bool := forallb (fun c => c <? 128)%N s.

Definition lowerUnit (c : codeunit) : codeunit :=
  if ((65 <=? c) && (c <=? 90))%N then (c + 32)%N else c.

Definition upperUnit (c : codeunit) : codeunit :=
  if ((97 <=? c) && (c <=? 122))%N then (c - 32)%N else c.

(** [hay] contains [needle] as a contiguous run of code units. *)
Definition contains (needle hay : jsstring) : Prop :=
  exists before after, hay = before ++ needle ++ after.

(** ** Exceptions *)

Inductive Exn :=
| TypeError                       (* raised by the language itself *)
| Rejected (message : jsstring).  (* a rejected fetch or body parse *)

Inductive Result (A : Type) :=
| Ok (a : A)
| Throw (e : Exn).
Arguments Ok {A} a.
Arguments Throw {A} e.

#[global] Instance Result_ret : MRet Result := fun _ a => Ok a.
#[global] Instance Result_bind : MBind Result := fun _ _ f m =>
  match m with Ok a => f a | Throw e => Throw e end.

(** [xs.map(f)] where [f] may raise: left to right, the first exception
    wins. *)
Fixpoint mapR {A B} (f : A -> Result B) (l : list A) : Result (list B) :=
  match l with
  | [] => Ok []
  | x :: l' => y ← f x; ys ← mapR f l'; Ok (y :: ys)
  end.

(** ** JSON values *)

#[local] Unset Elimination Schemes.
Inductive Value :=
| VUndefined
| VNull
| VBool (b : bool)
| VNum (f : float)
| VStr (s : jsstring)
| VArr (elems : list Value)
| VObj (props : list (jsstring * Value)).
#[local] Set Elimination Schemes.

(** The own property [k] of an object, [undefined] when there is none. *)
Fixpoint assoc (k : jsstring) (props : list (jsstring * Value)) : Value :=
  match props with
  | [] => VUndefined
  | (k', v) :: rest => if decide (k = k') then v else assoc k rest
  end.

Definition hasOwn (k : jsstring) (props : list (jsstring * Value)) : bool :=
  existsb (fun kv => bool_decide (k = kv.1)) props.

(** [undefined] and [null]. *)
Definition nullish (v : Value) : bool :=
  match v with VUndefined | VNull => true | _ => false end.

(** ToBoolean. *)
Definition truthy (v : Value) : bool :=
  match v with
  | VUndefined | VNull => false
  | VBool b => b
  | VNum f => negb (PrimFloat.is_zero f || PrimFloat.is_nan f)
  | VStr s => negb (bool_decide (s = []))
  | VArr _ | VObj _ => true
  end.

(** [a || b]. *)
Definition orElse (a b : Value) : Value := if truthy a then a else b.

(** [v.k] for the property names this program reads on JSON values
    (escalation, level, message, probable_conditions, name, confidence,
    rationale, next_steps, disclaimer, metadata, model, timestamp): none of
    them is defined on a prototype, so a primitive or an array answers
    [undefined], and [undefined] and [null] raise. *)
Definition getProp (v : Value) (k : jsstring) : Result Value :=
  match v with
  | VUndefined | VNull => Throw TypeError
  | VObj props => Ok (assoc k props)
  | _ => Ok VUndefined
  end.

(** [v?.k]. *)
Definition getPropOpt (v : Value) (k : jsstring) : Value :=
  match v with
  | VObj props => assoc k props
  | _ => VUndefined
  end.

(** ** The host *)

Record Host := {
  (* toLowerCase / toUpperCase of a string with a unit outside ASCII *)
  unicodeLower : jsstring -> jsstring;
  unicodeUpper : jsstring -> jsstring;
  (* Number::toString *)
  numberToString : float -> jsstring;
  (* Date.parse *)
  dateParse : jsstring -> float;
  (* new Date(t).toLocaleString() for a time value t *)
  dateToLocaleString : float -> jsstring;
  (* el.innerHTML = s; el.innerHTML: the parser's reading of s, serialised *)
  reserialize : jsstring -> jsstring;
  (* err.message of the TypeError that rendering this value raises: the
     engine words it after the expression that failed *)
  typeErrorMessage : Value -> jsstring;
}.

Section WithHost.
Context (h : Host).

Definition toLowerCase (s : jsstring) : jsstring :=
  if isAscii s then lowerUnit <$> s else unicodeLower h s.

Definition toUpperCase (s : jsstring) : jsstring :=
  if isAscii s then upperUnit <$> s else unicodeUpper h s.

(** [err.message] in a catch block: the text a rejection carries, or the
    engine's text for the TypeError raised while rendering [rendered]. *)
Definition message (rendered : Value) (e : Exn) : jsstring :=
  match e with
  | TypeError => typeErrorMessage h rendered
  | Rejected m => m
  end.

(** [xs.join(sep)] of strings. *)
Fixpoint join (sep : jsstring) (l : list jsstring) : jsstring :=
  match l with
  | [] => []
  | [s] => s
  | s :: rest => s ++ sep ++ join sep rest
  end.

(** ToString, as a template literal applies it to a substitution.  An
    object answers through Object.prototype.toString unless it has an own
    [toString] property, which in a JSON value is never callable. *)
Fixpoint toStr (v : Value) : Result jsstring :=
  match v with
  | VUndefined => Ok (lit "undefined")
  | VNull => Ok (lit "null")
  | VBool true => Ok (lit "true")
  | VBool false => Ok (lit "false")
  | VNum f => Ok (numberToString h f)
  | VStr s => Ok s
  | VArr elems =>
      parts ← (fix each (l : list Value) : Result (list jsstring) :=
                 match l with
                 | [] => Ok []
                 | e :: l' =>
                     s ← (if nullish e then Ok [] else toStr e);
                     ss ← each l'; Ok (s :: ss)
                 end) elems;
      Ok (join (lit ",") parts)
  | VObj props =>
      if hasOwn (lit "toString") props then Throw TypeError
      else Ok (lit "[object Object]")
  end.

(** [v.toLowerCase()] and [v.toUpperCase()] on a value that is not nullish:
    only a string has the method. *)
Definition callToLowerCase (v : Value) : Result Value :=
  match v with
  | VStr s => Ok (VStr (toLowerCase s))
  | _ => Throw TypeError
  end.

Definition callToUpperCase (v : Value) : Result Value :=
  match v with
  | VStr s => Ok (VStr (toUpperCase s))
  | _ => Throw TypeError
  end.

(** [v?.toLowerCase()]. *)
Definition optToLowerCase (v : Value) : Result Value :=
  if nullish v then Ok VUndefined else callToLowerCase v.

(** [xs.map(f)] joined without a separator: only an array has [map]. *)
Definition mapJoin (f : Value -> Result jsstring) (v : Value) : Result jsstring :=
  match v with
  | VArr elems => parts ← mapR f elems; Ok (concat parts)
  | _ => Throw TypeError
  end.

(** The time value of [new Date(v)]: a string is parsed, an array or an
    object goes through its string, anything else through ToNumber. *)
Definition newDate (v : Value) : Result float :=
  match v with
  | VUndefined => Ok nan
  | VNull => Ok 0%float
  | VBool b => Ok (if b then 1%float else 0%float)
  | VNum f => Ok f
  | VStr s => Ok (dateParse h s)
  | VArr _ | VObj _ => s ← toStr v; Ok (dateParse h s)
  end.

(** [new Date(v).toLocaleString()]. *)
Definition localeString (v : Value) : Result jsstring :=
  t ← newDate v; Ok (dateToLocaleString h t).

(** ** The renderer (buildResultHTML) *)

(** The banner template, with its substitutions filled in. *)
Definition alertBanner (cls tag text : jsstring) : jsstring :=
  lit "<div class=" ++ [dq] ++ lit "alert " ++ cls ++ [dq] ++ lit ">"
  ++ line 8 (siren ++ lit " <b>" ++ tag ++ lit "</b>: " ++ text)
  ++ line 6 (lit "</div>").

(** [const escalation]: the banner when [data.escalation] is truthy, the
    empty string otherwise. *)
Definition escalationHTML (data : Value) : Result jsstring :=
  esc ← getProp data (lit "escalation");
  if truthy esc then
    level ← getProp esc (lit "level");
    cls ← toStr level;
    upper ← callToUpperCase level;
    tag ← toStr upper;
    msg ← getProp esc (lit "message");
    text ← toStr msg;
    Ok (alertBanner cls tag text)
  else Ok [].

(** The condition template, with its substitutions filled in. *)
Definition conditionBlock (name cls confidence rationale : jsstring) : jsstring :=
  line 6 (lit "<div class=" ++ [dq] ++ lit "condition" ++ [dq] ++ lit ">")
  ++ line 8 (lit "<h3>" ++ name ++ lit "</h3>")
  ++ line 8 (lit "<div class=" ++ [dq] ++ lit "confidence-bar " ++ cls ++ [dq]
             ++ lit "><div></div></div>")
  ++ line 8 (lit "<p><b>Confidence:</b> " ++ confidence ++ lit "</p>")
  ++ line 8 (lit "<p>" ++ rationale ++ lit "</p>")
  ++ line 6 (lit "</div>").

(** The arrow function mapped over [probable_conditions]. *)
Definition conditionHTML (c : Value) : Result jsstring :=
  name ← getProp c (lit "name");
  nameText ← toStr name;
  confidence ← getProp c (lit "confidence");
  lowered ← optToLowerCase confidence;
  cls ← toStr lowered;
  confidenceText ← toStr confidence;
  rationale ← getProp c (lit "rationale");
  rationaleText ← toStr rationale;
  Ok (conditionBlock nameText cls confidenceText rationaleText).

(** [const conditions]: [(data.probable_conditions || [])], mapped and
    joined without a separator. *)
Definition conditionsHTML (data : Value) : Result jsstring :=
  pc ← getProp data (lit "probable_conditions");
  mapJoin conditionHTML (orElse pc (VArr [])).

(** The arrow function mapped over [next_steps]. *)
Definition stepHTML (s : Value) : Result jsstring :=
  text ← toStr s; Ok (lit "<li>" ++ text ++ lit "</li>").

(** [const nextSteps]: [(data.next_steps || [])], mapped and joined
    without a separator. *)
Definition nextStepsHTML (data : Value) : Result jsstring :=
  ns ← getProp data (lit "next_steps");
  mapJoin stepHTML (orElse ns (VArr [])).

(** [data.metadata?.model], or the literal local when that is falsy. *)
Definition modelName (data : Value) : Result jsstring :=
  metadata ← getProp data (lit "metadata");
  toStr (orElse (getPropOpt metadata (lit "model")) (VStr (lit "local"))).

(** [new Date(data.metadata?.timestamp || Date.now()).toLocaleString()];
    [now] is what [Date.now()] reads. *)
Definition footerTime (now : float) (data : Value) : Result jsstring :=
  metadata ← getProp data (lit "metadata");
  localeString (orElse (getPropOpt metadata (lit "timestamp")) (VNum now)).

(** The returned template, with its substitutions filled in. *)
Definition resultCard (disclaimer escalation conditions nextSteps model time : jsstring)
  : jsstring :=
  line 4 (lit "<div class=" ++ [dq] ++ lit "result-card" ++ [dq] ++ lit ">")
  ++ line 6 (lit "<p class=" ++ [dq] ++ lit "disclaimer" ++ [dq] ++ lit ">"
             ++ disclaimer ++ lit "</p>")
  ++ line 6 escalation
  ++ line 6 (lit "<h2>" ++ stethoscope ++ lit " Probable Conditions</h2>")
  ++ line 6 conditions
  ++ line 6 (lit "<h2>" ++ compass ++ lit " Recommended Next Steps</h2>")
  ++ line 6 (lit "<ul>" ++ nextSteps ++ lit "</ul>")
  ++ line 6 (lit "<div class=" ++ [dq] ++ lit "meta" ++ [dq] ++ lit ">")
  ++ line 8 (lit "<small><b>Model:</b> " ++ model ++ lit "</small> |")
  ++ line 8 (lit "<small>" ++ time ++ lit "</small>")
  ++ line 6 (lit "</div>")
  ++ line 4 (lit "</div>").

Definition buildResultHTML (now : float) (data : Value) : Result jsstring :=
  escalation ← escalationHTML data;
  conditions ← conditionsHTML data;
  nextSteps ← nextStepsHTML data;
  disclaimer ← getProp data (lit "disclaimer");
  disclaimerText ← toStr disclaimer;
  model ← modelName data;
  time ← footerTime now data;
  Ok (resultCard disclaimerText escalation conditions nextSteps model time).

End WithHost.

(** ** The page *)

(** [a === b] on values of two different JSON replies: primitives compare
    by value, and two arrays or objects are never the same object. *)
Definition strictEq (a b : Value) : bool :=
  match a, b with
  | VUndefined, VUndefined | VNull, VNull => true
  | VBool x, VBool y => bool_decide (x = y)
  | VNum x, VNum y => PrimFloat.eqb x y
  | VStr x, VStr y => bool_decide (x = y)
  | _, _ => false
  end.

(** An entry of the history reply.  The columns the backend stores are
    typed; [model_response] is the stored advisory reply, any JSON value. *)
Record HistoryRecord := {
  query_id : Value;
  symptoms : jsstring;
  timestamp : Value;
  model_response : Value;
}.

(** A child of the history list. *)
Record Li := {
  textContent : jsstring;
  title : jsstring;
  opens : option Value;   (* the query_id its click listener loads *)
}.

(** The closure of one [typeResult] call, alive while its interval is. *)
Record Timer := {
  html : jsstring;
  i : nat;
  tempDiv : jsstring;     (* markup last assigned to tempDiv.innerHTML *)
}.

Record Page := {
  resultEl : jsstring;        (* markup last assigned to resultEl.innerHTML *)
  historyList : list Li;
  btnDisabled : bool;         (* analyze-btn *)
  btnText : jsstring;
  timers : gmap nat Timer;    (* the intervals not yet cleared *)
  nextTimer : nat;            (* the id the next setInterval returns *)
  pendingAnalyze : nat;       (* POST /analyze requests in flight *)
  pendingHistory : nat;       (* loadHistory requests in flight *)
  pendingLookups : list Value; (* loadResultById requests in flight *)
  pendingClear : nat;         (* DELETE /history/clear requests in flight *)
}.

Definition setResult (markup : jsstring) (p : Page) : Page :=
  {| resultEl := markup; historyList := historyList p;
     btnDisabled := btnDisabled p; btnText := btnText p;
     timers := timers p; nextTimer := nextTimer p;
     pendingAnalyze := pendingAnalyze p; pendingHistory := pendingHistory p;
     pendingLookups := pendingLookups p; pendingClear := pendingClear p |}.

Definition setHistoryList (items : list Li) (p : Page) : Page :=
  {| resultEl := resultEl p; historyList := items;
     btnDisabled := btnDisabled p; btnText := btnText p;
     timers := timers p; nextTimer := nextTimer p;
     pendingAnalyze := pendingAnalyze p; pendingHistory := pendingHistory p;
     pendingLookups := pendingLookups p; pendingClear := pendingClear p |}.

Definition setButton (disabled : bool) (text : jsstring) (p : Page) : Page :=
  {| resultEl := resultEl p; historyList := historyList p;
     btnDisabled := disabled; btnText := text;
     timers := timers p; nextTimer := nextTimer p;
     pendingAnalyze := pendingAnalyze p; pendingHistory := pendingHistory p;
     pendingLookups := pendingLookups p; pendingClear := pendingClear p |}.

Definition setTimers (ts : gmap nat Timer) (next : nat) (p : Page) : Page :=
  {| resultEl := resultEl p; historyList := historyList p;
     btnDisabled := btnDisabled p; btnText := btnText p;
     timers := ts; nextTimer := next;
     pendingAnalyze := pendingAnalyze p; pendingHistory := pendingHistory p;
     pendingLookups := pendingLookups p; pendingClear := pendingClear p |}.

Definition setPending (analyze history : nat) (lookups : list Value) (clear : nat)
    (p : Page) : Page :=
  {| resultEl := resultEl p; historyList := historyList p;
     btnDisabled := btnDisabled p; btnText := btnText p;
     timers := timers p; nextTimer := nextTimer p;
     pendingAnalyze := analyze; pendingHistory := history;
     pendingLookups := lookups; pendingClear := clear |}.

(** The page once the script has run top to bottom: whatever markup the
    document came with, the analyze control enabled, and the first
    [loadHistory()] in flight. *)
Definition initialPage (result : jsstring) (label : jsstring) : Page :=
  {| resultEl := result; historyList := [];
     btnDisabled := false; btnText := label;
     timers := ∅; nextTimer := 1;
     pendingAnalyze := 0; pendingHistory := 1;
     pendingLookups := []; pendingClear := 0 |}.

(** The fixed pieces of markup. *)
Definition errorMarkup (msg : jsstring) : jsstring :=
  lit "<p class='error'>" ++ crossMark ++ lit " " ++ msg ++ lit "</p>".

Definition noSavedResponse : jsstring :=
  lit "<p class='error'>" ++ crossMark ++ lit " No saved response found.</p>".

Definition loadingMarkup : jsstring :=
  lit "<p class='loading'>" ++ hourglass ++ lit " Analyzing your symptoms...</p>".

Definition noQueriesItem : Li :=
  {| textContent := lit "No previous queries"; title := []; opens := None |}.

Definition failedItem : Li :=
  {| textContent := warningSign ++ lit " Failed to load history";
     title := []; opens := None |}.

(** The text of a history item (line 45). *)
Definition preview (symptoms : jsstring) : jsstring :=
  if decide (50 < length symptoms) then take 50 symptoms ++ lit "..."
  else symptoms.

Section Handlers.
Context (h : Host).

(** *** The typing effect *)

(** [typeResult(data)]: render, empty the result element, start an
    interval.  A rendering that raises leaves the page as it was. *)
Definition typeResult (now : float) (data : Value) (p : Page) : Result Page :=
  markup ← buildResultHTML h now data;
  let timer := {| html := markup; i := 0; tempDiv := [] |} in
  Ok (setTimers (<[nextTimer p := timer]> (timers p)) (S (nextTimer p))
        (setResult [] p)).

(** One run of the interval callback of timer [id]; [None] when that
    interval is not active. *)
Definition tick (id : nat) (p : Page) : option Page :=
  t ← timers p !! id;
  let shown := take (i t) (html t) in          (* html.slice(0, i++) *)
  let t' := {| html := html t; i := S (i t); tempDiv := shown |} in
  let p' := setResult (reserialize h shown) p in
  Some (if decide (length (html t) ≤ S (i t))
        then setTimers (delete id (timers p)) (nextTimer p) p'
        else setTimers (<[id := t']> (timers p)) (nextTimer p) p').

(** *** The history sidebar *)

(** The item [forEach] appends for one entry. *)
Definition historyItem (r : HistoryRecord) : Result Li :=
  when ← localeString h (timestamp r);
  Ok {| textContent := preview (symptoms r); title := when;
        opens := Some (query_id r) |}.

(** [loadHistory()], entered. *)
Definition loadHistory_start (p : Page) : Page :=
  setPending (pendingAnalyze p) (S (pendingHistory p)) (pendingLookups p)
    (pendingClear p) p.

(** [loadHistory()], from the moment its reply is there. *)
Definition loadHistory_settled (reply : Result (list HistoryRecord)) (p : Page) : Page :=
  let items :=
    match reply with
    | Ok [] => [noQueriesItem]
    | Ok history =>
        match mapR historyItem history with
        | Ok items => items
        | Throw _ => [failedItem]
        end
    | Throw _ => [failedItem]
    end in
  setHistoryList items
    (setPending (pendingAnalyze p) (pred (pendingHistory p)) (pendingLookups p)
       (pendingClear p) p).

(** [loadResultById(queryId)], from the moment its reply is there. *)
Definition loadResultById_settled (now : float) (queryId : Value)
    (reply : Result (list HistoryRecord)) (p : Page) : Page :=
  match reply with
  | Ok history =>
      match find (fun r => strictEq (query_id r) queryId) history with
      | Some record =>
          if truthy (model_response record) then
            match typeResult now (model_response record) p with
            | Ok p' => p'
            | Throw e =>
                setResult (errorMarkup (message h (model_response record) e)) p
            end
          else setResult noSavedResponse p
      | None => setResult noSavedResponse p
      end
  | Throw e => setResult (errorMarkup (message h VUndefined e)) p
  end.

(** *** The symptom form *)

(** The submit handler up to its first [await]. *)
Definition submit_start (p : Page) : Page :=
  setPending (S (pendingAnalyze p)) (pendingHistory p) (pendingLookups p)
    (pendingClear p)
    (setResult loadingMarkup (setButton true (lit "Analyzing...") p)).

(** The submit handler from the moment the analyze reply is there: the
    rest of [try], [catch], [finally]. *)
Definition submit_settled (now : float) (reply : Result Value) (p : Page) : Page :=
  let p1 :=
    match reply with
    | Ok data =>
        match typeResult now data p with
        | Ok p' => loadHistory_start p'
        | Throw e => setResult (errorMarkup (message h data e)) p
        end
    | Throw e => setResult (errorMarkup (message h VUndefined e)) p
    end in
  setButton false (lit "Analyze")
    (setPending (pred (pendingAnalyze p1)) (pendingHistory p1) (pendingLookups p1)
       (pendingClear p1) p1).

(** *** The clear button *)

(** The click handler from the moment the reply to the delete request is
    there: the alert, then [loadHistory()]; a reply that raises on the way
    gets the failure alert alone. *)
Definition clear_settled (reply : Result Value) (p : Page) : Page :=
  let p1 := setPending (pendingAnalyze p) (pendingHistory p) (pendingLookups p)
              (pred (pendingClear p)) p in
  let alerted :=
    data ← reply;
    msg ← getProp data (lit "message");
    toStr h (orElse msg (VStr (lit "History cleared!"))) in
  match alerted with
  | Ok _ => loadHistory_start p1
  | Throw _ => p1
  end.

(** *** The event loop *)

(** What can happen to the page.  The replies and the clock readings are
    the environment's.  The theme toggle and the sidebar toggle touch
    nothing that is modelled here and have no event. *)
Inductive Event :=
| Submit                                        (* the form is submitted *)
| AnalyzeSettled (now : float) (reply : Result Value)
| HistorySettled (reply : Result (list HistoryRecord))
| ItemClick (n : nat)                           (* the n-th history item *)
| LookupSettled (n : nat) (now : float) (reply : Result (list HistoryRecord))
| ClearConfirmed                                (* clear button, confirmed *)
| ClearSettled (reply : Result Value)
| Tick (id : nat).                              (* interval [id] fires *)

(** One turn of the event loop; [None] when the event cannot happen in
    this page.  The form is submitted through the analyze control, which
    does nothing while it is disabled. *)
Definition step (e : Event) (p : Page) : option Page :=
  match e with
  | Submit =>
      if btnDisabled p then None else Some (submit_start p)
  | AnalyzeSettled now reply =>
      if decide (0 < pendingAnalyze p) then Some (submit_settled now reply p)
      else None
  | HistorySettled reply =>
      if decide (0 < pendingHistory p) then Some (loadHistory_settled reply p)
      else None
  | ItemClick n =>
      item ← historyList p !! n;
      queryId ← opens item;
      Some (setPending (pendingAnalyze p) (pendingHistory p)
              (pendingLookups p ++ [queryId]) (pendingClear p) p)
  | LookupSettled n now reply =>
      queryId ← pendingLookups p !! n;
      Some (loadResultById_settled now queryId reply
              (setPending (pendingAnalyze p) (pendingHistory p)
                 (delete n (pendingLookups p)) (pendingClear p) p))
  | ClearConfirmed =>
      Some (setPending (pendingAnalyze p) (pendingHistory p) (pendingLookups p)
              (S (pendingClear p)) p)
  | ClearSettled reply =>
      if decide (0 < pendingClear p) then Some (clear_settled reply p) else None
  | Tick id => tick id p
  end.

Fixpoint run (es : list Event) (p : Page) : option Page :=
  match es with
  | [] => Some p
  | e :: es' => p' ← step e p; run es' p'
  end.


End Handlers.

(** ** A host to run examples on *)

(** The integer a finite float holds, rounded towards zero. *)
Definition floatToZ (f : float) : option Z :=
  match Prim2SF f with
  | S754_zero _ => Some 0%Z
  | S754_finite s m e =>
      let magnitude := Z.shiftl (Z.pos m) e in
      Some (if s then (- magnitude)%Z else magnitude)
  | _ => None
  end.

Definition decimal (z : Z) : jsstring := lit (pretty z).

Definition twoDigits (z : Z) : jsstring :=
  if (z <? 10)%Z then lit "0" ++ decimal z else decimal z.

(** Year, month and day of a day count from 1 January 1970, in the
    proleptic Gregorian calendar. *)
Definition civil (days : Z) : Z * Z * Z :=
  let z := (days + 719468)%Z in
  let era := (z / 146097)%Z in
  let doe := (z - era * 146097)%Z in
  let yoe := ((doe - doe / 1460 + doe / 36524 - doe / 146096) / 365)%Z in
  let doy := (doe - (365 * yoe + yoe / 4 - yoe / 100))%Z in
  let mp := ((5 * doy + 2) / 153)%Z in
  let d := (doy - (153 * mp + 2) / 5 + 1)%Z in
  let m := (if (mp <? 10)%Z then mp + 3 else mp - 9)%Z in
  let y := (yoe + era * 400 + (if (m <=? 2)%Z then 1 else 0))%Z in
  (y, m, d).

(** An instant the way an en-US browser set to UTC writes it. *)
Definition enUS_UTC (t : float) : jsstring :=
  match floatToZ t with
  | Some ms =>
      if (Z.abs ms <=? 8640000000000000)%Z then
        let '(y, m, d) := civil (ms / 86400000) in
        let rest := (ms mod 86400000)%Z in
        let hour := (rest / 3600000)%Z in
        let minute := (rest / 60000 mod 60)%Z in
        let second := (rest / 1000 mod 60)%Z in
        let hour12 := (if (hour mod 12 =? 0)%Z then 12 else hour mod 12)%Z in
        decimal m ++ lit "/" ++ decimal d ++ lit "/" ++ decimal y ++ lit ", "
        ++ decimal hour12 ++ lit ":" ++ twoDigits minute ++ lit ":"
        ++ twoDigits second ++ (if (hour <? 12)%Z then lit " AM" else lit " PM")
      else lit "Invalid Date"
  | None => lit "Invalid Date"
  end.

(** What the parser behind [innerHTML] makes of markup whose tags are in
    lower case with quoted attributes, none of them void, raw text or with
    an implied end, and whose text holds no markup character: a tag the
    input ends in the middle of is dropped, a lone opening bracket stays as
    text, and the elements still open at the end are closed. *)
Definition tagName (tag : jsstring) : jsstring :=
  takeWhileUnit (fun c => negb (c =? 32)%N) tag.

Definition endTag (name : jsstring) : jsstring :=
  lit "</" ++ name ++ lit ">".

(** The open elements an end tag closes, and those it leaves open; none is
    closed by an end tag without an open element of its name. *)
Fixpoint popTo (name : jsstring) (stack : list jsstring)
  : option (list jsstring * list jsstring) :=
  match stack with
  | [] => None
  | top :: rest =>
      if decide (top = name) then Some ([top], rest)
      else '(closed, kept) ← popTo name rest; Some (top :: closed, kept)
  end.

(** [tag] is the tag being read, without its brackets; [quoted] says
    whether an attribute value is open in it. *)
Fixpoint parseSerialize (s : jsstring) (stack : list jsstring)
    (tag : option jsstring) (quoted : bool) : jsstring :=
  match s, tag with
  | [], None => concat (endTag <$> stack)
  | [], Some read =>
      (if decide (read = []) then lit "&lt;"
       else if decide (read = lit "/") then lit "&lt;/"
       else [])
      ++ concat (endTag <$> stack)
  | c :: rest, None =>
      if (c =? 60)%N then parseSerialize rest stack (Some []) false
      else c :: parseSerialize rest stack None false
  | c :: rest, Some read =>
      if ((c =? 62)%N && negb quoted)%bool then
        match read with
        | 47%N :: name =>
            match popTo name stack with
            | Some (closed, kept) =>
                concat (endTag <$> closed) ++ parseSerialize rest kept None false
            | None => parseSerialize rest stack None false
            end
        | _ =>
            lit "<" ++ read ++ lit ">"
            ++ parseSerialize rest (tagName read :: stack) None false
        end
      else
        parseSerialize rest stack (Some (read ++ [c]))
          (if (c =? 34)%N then negb quoted else quoted)
  end.

(** A stand-in for the browser: exact on whole numbers and on instants,
    it leaves units outside ASCII in their case, knows no date string,
    reads markup as [parseSerialize] does and words every TypeError
    alike. *)
Definition plainHost : Host :=
  {| unicodeLower := fun s => s;
     unicodeUpper := fun s => s;
     numberToString := fun f =>
       match floatToZ f with Some z => decimal z | None => lit "NaN" end;
     dateParse := fun _ => nan;
     dateToLocaleString := enUS_UTC;
     reserialize := fun s => parseSerialize s [] None false;
     typeErrorMessage := fun _ => lit "TypeError" |}.

(** Sample records. *)
Definition str (s : string) : Value := VStr (lit s).
Definition obj (props : list (string * Value)) : Value :=
  VObj ((fun kv => (lit kv.1, kv.2)) <$> props).

Definition soreThroat : Value :=
  obj [("disclaimer", str "Educational use only.");
       ("probable_conditions",
        VArr [obj [("name", str "Viral infection"); ("confidence", str "High");
                   ("rationale", str "Common cause.")];
              obj [("name", str "Strep throat"); ("confidence", str "medium");
                   ("rationale", str "Less common.")]]);
       ("next_steps", VArr [str "Rest"; str "Fluids"; str "See a doctor"]);
       ("metadata", obj [("model", str "gpt-oss"); ("timestamp", VNum 86400000%float)])].

Definition chestPain : Value :=
  obj [("disclaimer", str "Educational use only.");
       ("probable_conditions", VArr []);
       ("escalation", obj [("level", str "critical");
                           ("message", str "Seek emergency care")]);
       ("next_steps", VArr [])].

(** ** The data model *)

(** The advisory record of the data model, read off a JSON value: which
    values are records, and what a record's fields hold.  An optional
    field may be missing or null. *)
Definition field (k : string) (v : Value) : Value := getPropOpt v (lit k).

Definition isText (v : Value) : bool :=
  match v with VStr _ => true | _ => false end.

Definition optional (shape : Value -> bool) (v : Value) : bool :=
  nullish v || shape v.

Definition isCondition (c : Value) : bool :=
  match c with
  | VObj _ =>
      isText (field "name" c) && optional isText (field "confidence" c)
      && isText (field "rationale" c)
  | _ => false
  end.

Definition isEscalation (e : Value) : bool :=
  match e with
  | VObj _ => isText (field "level" e) && isText (field "message" e)
  | _ => false
  end.

Definition isSequence (item : Value -> bool) (v : Value) : bool :=
  match v with
  | VArr elems => forallb item elems
  | _ => false
  end.

Definition isInstant (v : Value) : bool :=
  match v with VStr _ | VNum _ => true | _ => false end.

Definition isMetadata (m : Value) : bool :=
  match m with
  | VObj _ => optional isText (field "model" m) && optional isInstant (field "timestamp" m)
  | _ => false
  end.

Definition isAdvisory (data : Value) : bool :=
  match data with
  | VObj _ =>
      isText (field "disclaimer" data)
      && optional isEscalation (field "escalation" data)
      && optional (isSequence isCondition) (field "probable_conditions" data)
      && optional (isSequence isText) (field "next_steps" data)
      && optional isMetadata (field "metadata" data)
  | _ => false
  end.

(** The entries of a sequence field, none when the field is not an array. *)
Definition entries (v : Value) : list Value :=
  match v with VArr elems => elems | _ => [] end.

(** The text a text field holds. *)
Definition textOf (v : Value) : jsstring :=
  match v with VStr s => s | _ => [] end.

(** The class and the text a confidence value puts into its block. *)
Definition confidenceClass (h : Host) (confidence : Value) : jsstring :=
  match confidence with
  | VStr s => toLowerCase h s
  | _ => lit "undefined"
  end.

Definition confidenceText (confidence : Value) : jsstring :=
  match confidence with
  | VStr s => s
  | VNull => lit "null"
  | _ => lit "undefined"
  end.

(** The pages the event loop can reach. *)
Definition reachable (h : Host) (p : Page) : Prop :=
  exists result label es, run h es (initialPage result label) = Some p.

(** What every turn of the event loop keeps: interval ids are handed out
    in increasing order, and the analyze control is disabled exactly while
    the one analyze request is in flight. *)
Definition timersFresh (p : Page) : Prop :=
  forall id, is_Some (timers p !! id) -> id < nextTimer p.

Definition oneAnalysis (p : Page) : Prop :=
  pendingAnalyze p <= 1 /\ (btnDisabled p = true <-> pendingAnalyze p = 1).

(** Two analyses, the second while the first is still being revealed. *)
Definition overlappingReveals : list Event :=
  [Submit; AnalyzeSettled 0%float (Ok soreThroat); Tick 1; Tick 1;
   Submit; AnalyzeSettled 0%float (Ok chestPain)].

(** The page in the middle of the first reveal, two firings in. *)
Definition midReveal : Page :=
  default (initialPage [] (lit "Analyze"))
    (run plainHost [Submit; AnalyzeSettled 0%float (Ok soreThroat); Tick 1; Tick 1]
       (initialPage [] (lit "Analyze"))).

(** A condition with a confidence that is none of the three levels. *)
Definition maybeFlu : Value :=
  obj [("name", str "Flu"); ("confidence", str "maybe");
       ("rationale", str "Seasonal.")].

(** A history reply with one saved response and one without. *)
Definition sampleHistory : list HistoryRecord :=
  [ {| query_id := str "q1"; symptoms := lit "sore throat and headache";
       timestamp := VNum 86400000%float; model_response := soreThroat |};
    {| query_id := str "q2";
       symptoms := lit "chest pain and shortness of breath since this morning";
       timestamp := VNum 172800000%float; model_response := VNull |} ].

(** ** The theme and the sidebar *)

Definition sun : jsstring := [9728; 65039]%N.    (* U+2600 U+FE0F *)
Definition moon : jsstring := [55356; 57113]%N.  (* U+1F319 *)

(** What the theme and sidebar handlers read and write. *)
Record Chrome := {
  bodyDark : bool;                  (* document.body has the class dark *)
  themeText : jsstring;             (* themeToggle.textContent *)
  storedTheme : option jsstring;    (* localStorage theme item, None for null *)
  sidebarShown : bool;              (* sidebar has the class show *)
  overlayDisplay : jsstring;        (* overlay.style.display *)
}.

(** The click listener of the theme toggle. *)
Definition themeToggle_click (c : Chrome) : Chrome :=
  let dark := negb (bodyDark c) in
  {| bodyDark := dark;
     themeText := if dark then sun else moon;
     storedTheme := Some (if dark then lit "dark" else lit "light");
     sidebarShown := sidebarShown c; overlayDisplay := overlayDisplay c |}.

(** The statement after it, run once when the script loads. *)
Definition restoreTheme (c : Chrome) : Chrome :=
  if bool_decide (storedTheme c = Some (lit "dark")) then
    {| bodyDark := true; themeText := sun; storedTheme := storedTheme c;
       sidebarShown := sidebarShown c; overlayDisplay := overlayDisplay c |}
  else c.

(** The click listener of the history button. *)
Definition historyBtn_click (c : Chrome) : Chrome :=
  let shown := negb (sidebarShown c) in
  {| bodyDark := bodyDark c; themeText := themeText c; storedTheme := storedTheme c;
     sidebarShown := shown;
     overlayDisplay := if shown then lit "block" else lit "none" |}.

(** The click listener of the overlay; a history item's listener does the
    same to the sidebar after it has called [loadResultById]. *)
Definition overlay_click (c : Chrome) : Chrome :=
  {| bodyDark := bodyDark c; themeText := themeText c; storedTheme := storedTheme c;
     sidebarShown := false; overlayDisplay := lit "none" |}.

Inductive ChromeEvent := ThemeClick | HistoryClick | OverlayClick | ItemChosen.

Definition chromeStep (e : ChromeEvent) (c : Chrome) : Chrome :=
  match e with
  | ThemeClick => themeToggle_click c
  | HistoryClick => historyBtn_click c
  | OverlayClick | ItemChosen => overlay_click c
  end.

Definition chromeRun (es : list ChromeEvent) (c : Chrome) : Chrome :=
  foldl (fun c e => chromeStep e c) c es.

(** The page loaded anew: the document as it is served, the storage as
    the last visit left it, then the script. *)
Definition reload (document : Chrome) (c : Chrome) : Chrome :=
  restoreTheme
    {| bodyDark := bodyDark document; themeText := themeText document;
       storedTheme := storedTheme c;
       sidebarShown := sidebarShown document;
       overlayDisplay := overlayDisplay document |}.

(** The overlay is displayed exactly when the sidebar is shown. *)
Definition overlayMatches (c : Chrome) : Prop :=
  overlayDisplay c = if sidebarShown c then lit "block" else lit "none".

(** ** The analyze request *)

(** WhiteSpace and LineTerminator, the units [trim] strips. *)
Definition isWhiteSpace (c : codeunit) : bool :=
  bool_decide (c ∈ [9; 10; 11; 12; 13; 32; 160; 5760; 8232; 8233; 8239; 8287;
                    12288; 65279]%N)
  || ((8192 <=? c) && (c <=? 8202))%N.

Fixpoint trimStart (s : jsstring) : jsstring :=
  match s with
  | c :: rest => if isWhiteSpace c then trimStart rest else s
  | [] => []
  end.

Definition trimEnd (s : jsstring) : jsstring := reverse (trimStart (reverse s)).

(** [s.trim()]. *)
Definition trim (s : jsstring) : jsstring := trimEnd (trimStart s).

(** The object the submit handler serialises into the request body, from
    the values of the three form controls. *)
Definition analyzeRequest (symptoms age : jsstring) (pregnant : bool) : Value :=
  VObj [(lit "symptoms", VStr (trim symptoms));
        (lit "age", orElse (VStr age) VNull);
        (lit "pregnant", VBool pregnant)].

(** ** Measures of the typing effect *)

(** The firings interval [id] has left. *)
Definition remaining (id : nat) (p : Page) : nat :=
  match timers p !! id with
  | Some t => length (html t) - i t
  | None => 0
  end.

(** How often interval [id] fires in a list of events. *)
Fixpoint firings (id : nat) (es : list Event) : nat :=
  match es with
  | [] => 0
  | Tick id' :: es' => (if decide (id' = id) then 1 else 0) + firings id es'
  | _ :: es' => firings id es'
  end.

(** Every active interval is short of its end, and its scratch element
    holds the prefix it showed last. *)
Definition timersSound (p : Page) : Prop :=
  forall id t, timers p !! id = Some t ->
    i t < length (html t) /\ tempDiv t = take (pred (i t)) (html t).

(** More sample values. *)
Definition errorBody : Value := obj [("detail", str "Internal Server Error")].

Definition badTimestamp : HistoryRecord :=
  {| query_id := str "q3"; symptoms := lit "cough";
     timestamp := obj [("toString", VNull)]; model_response := soreThroat |}.

Definition lightDocument : Chrome :=
  {| bodyDark := false; themeText := moon; storedTheme := None;
     sidebarShown := false; overlayDisplay := [] |}.

(** * Properties *)

#[local] Arguments lit : simpl never.
#[local] Arguments line : simpl never.
#[local] Arguments field : simpl never.

(** ** The model on examples *)

Example enUS_UTC_epoch : enUS_UTC 0%float = lit "1/1/1970, 12:00:00 AM".
Proof. vm_compute. reflexivity. Qed.

Example enUS_UTC_leap_day :
  enUS_UTC 1709210096000%float = lit "2/29/2024, 12:34:56 PM".
Proof. vm_compute. reflexivity. Qed.

Example enUS_UTC_before_epoch :
  enUS_UTC (-1000)%float = lit "12/31/1969, 11:59:59 PM".
Proof. vm_compute. reflexivity. Qed.

Example enUS_UTC_invalid : enUS_UTC nan = lit "Invalid Date".
Proof. vm_compute. reflexivity. Qed.

Example toStr_array :
  toStr plainHost (VArr [VNum 1%float; VNull; str "a"; VArr [VBool true; VUndefined]])
  = Ok (lit "1,,a,true,").
Proof. vm_compute. reflexivity. Qed.

Example toStr_object : toStr plainHost (obj [("level", str "info")]) = Ok (lit "[object Object]").
Proof. vm_compute. reflexivity. Qed.

Example toStr_shadowed : toStr plainHost (obj [("toString", VNum 1%float)]) = Throw TypeError.
Proof. reflexivity. Qed.

Example truthy_examples :
  truthy (VNum 0%float) = false /\ truthy (VNum nan) = false
  /\ truthy (str "") = false /\ truthy (str "0") = true
  /\ truthy (VArr []) = true /\ truthy (obj []) = true.
Proof. repeat split; reflexivity. Qed.

Example escalation_without_level :
  buildResultHTML plainHost 0%float (obj [("escalation", obj [])]) = Throw TypeError.
Proof. reflexivity. Qed.

Example render_null : buildResultHTML plainHost 0%float VNull = Throw TypeError.
Proof. reflexivity. Qed.

Example model_defaults_to_local :
  modelName plainHost chestPain = Ok (lit "local")
  /\ modelName plainHost soreThroat = Ok (lit "gpt-oss").
Proof. split; vm_compute; reflexivity. Qed.

Example preview_short : preview (lit "sore throat and headache") = lit "sore throat and headache".
Proof. reflexivity. Qed.

Example preview_fifty :
  preview (lit "12345678901234567890123456789012345678901234567890")
  = lit "12345678901234567890123456789012345678901234567890".
Proof. reflexivity. Qed.

Example preview_fifty_one :
  preview (lit "123456789012345678901234567890123456789012345678901")
  = lit "12345678901234567890123456789012345678901234567890...".
Proof. reflexivity. Qed.

Example history_empty :
  historyList (loadHistory_settled plainHost (Ok []) (initialPage [] (lit "Analyze")))
  = [noQueriesItem].
Proof. reflexivity. Qed.

Example history_failed :
  historyList (loadHistory_settled plainHost (Throw (Rejected (lit "Failed to fetch")))
                 (initialPage [] (lit "Analyze")))
  = [failedItem].
Proof. reflexivity. Qed.

Example analyze_failed :
  let p := submit_settled plainHost 0%float (Throw (Rejected (lit "Failed to fetch")))
             (submit_start (initialPage [] (lit "Analyze"))) in
  resultEl p = errorMarkup (lit "Failed to fetch")
  /\ btnDisabled p = false /\ btnText p = lit "Analyze" /\ pendingAnalyze p = 0.
Proof. repeat split; reflexivity. Qed.

(** ** Results and strings *)

Lemma bind_Ok {A B} (a : A) (f : A -> Result B) : Ok a ≫= f = f a.
Proof. reflexivity. Qed.

Lemma bind_Ok_inv {A B} (m : Result A) (f : A -> Result B) (b : B) :
  m ≫= f = Ok b -> exists a, m = Ok a /\ f a = Ok b.
Proof. destruct m as [a|e]; [eauto | discriminate]. Qed.

Lemma mapR_Forall2 {A B} (f : A -> Result B) (l : list A) (ys : list B) :
  mapR f l = Ok ys <-> Forall2 (fun x y => f x = Ok y) l ys.
Proof.
  revert ys. induction l as [|x l IH]; intros ys; simpl.
  - split; [intros [= <-]; constructor | inversion 1; reflexivity].
  - split.
    + intros Hm. apply bind_Ok_inv in Hm as (y & Hy & Hm).
      apply bind_Ok_inv in Hm as (ys' & Hys & [= <-]).
      constructor; [exact Hy | by apply IH].
    + inversion 1 as [|? y ? ys' Hy Hys]; subst.
      rewrite Hy. simpl. apply IH in Hys. rewrite Hys. reflexivity.
Qed.

Lemma mapR_total {A B} (f : A -> Result B) (g : A -> B) (l : list A) :
  Forall (fun x => f x = Ok (g x)) l -> mapR f l = Ok (g <$> l).
Proof.
  induction 1 as [|x l Hx _ IH]; simpl; [reflexivity|].
  rewrite Hx. simpl. rewrite IH. reflexivity.
Qed.

Lemma contains_app_l (needle a b : jsstring) :
  contains needle a -> contains needle (a ++ b).
Proof.
  intros (x & y & ->). exists x, (y ++ b). by rewrite <- !app_assoc.
Qed.

Lemma contains_app_r (needle a b : jsstring) :
  contains needle b -> contains needle (a ++ b).
Proof.
  intros (x & y & ->). exists (a ++ x), y. by rewrite <- !app_assoc.
Qed.

Lemma contains_refl (s : jsstring) : contains s s.
Proof. exists [], []. by rewrite app_nil_r. Qed.

Lemma contains_line (needle s : jsstring) (n : nat) :
  contains needle s -> contains needle (line n s).
Proof.
  intros Hc. unfold line. change (nl :: ?r) with ([nl] ++ r).
  by do 2 apply contains_app_r.
Qed.

Create HintDb contains.
#[local] Hint Resolve contains_app_l contains_app_r contains_refl contains_line
  : contains.

(** ** Values *)

Section RendererFacts.
Context (h : Host).

Lemma toStr_text (v : Value) : isText v = true -> toStr h v = Ok (textOf v).
Proof. by destruct v. Qed.

Lemma isText_inv (v : Value) : isText v = true -> v = VStr (textOf v).
Proof. by destruct v. Qed.

Lemma orElse_falsy (a b : Value) : truthy a = false -> orElse a b = b.
Proof. unfold orElse. by intros ->. Qed.

Lemma nullish_falsy (v : Value) : nullish v = true -> truthy v = false.
Proof. by destruct v. Qed.

Lemma getProp_obj (props : list (jsstring * Value)) (k : string) :
  getProp (VObj props) (lit k) = Ok (field k (VObj props)).
Proof. reflexivity. Qed.

Lemma conditionHTML_condition (c : Value) :
  isCondition c = true ->
  conditionHTML h c =
    Ok (conditionBlock (textOf (field "name" c))
          (confidenceClass h (field "confidence" c))
          (confidenceText (field "confidence" c))
          (textOf (field "rationale" c))).
Proof.
  destruct c as [| | | | | |props]; try discriminate.
  unfold isCondition, optional. rewrite !andb_true_iff, orb_true_iff.
  intros [[Hn Hc] Hr]. unfold conditionHTML.
  rewrite !getProp_obj, !bind_Ok, (toStr_text _ Hn), bind_Ok.
  destruct (field "confidence" (VObj props)) as [| | | |s| |];
    destruct Hc as [Hc|Hc]; try discriminate;
    cbn [optToLowerCase callToLowerCase nullish toStr mbind Result_bind];
    rewrite ?bind_Ok, (toStr_text _ Hr); reflexivity.
Qed.

Lemma stepHTML_text (s : Value) :
  isText s = true -> stepHTML h s = Ok (lit "<li>" ++ textOf s ++ lit "</li>").
Proof. intros Hs. unfold stepHTML. by rewrite (toStr_text _ Hs). Qed.

End RendererFacts.

(** ** The renderer *)

Section Renderer.
Context (h : Host).

Lemma getProp_field (data : Value) (k : string) :
  nullish data = false -> getProp data (lit k) = Ok (field k data).
Proof. by destruct data. Qed.

Lemma escalationHTML_absent (data : Value) :
  nullish data = false -> truthy (field "escalation" data) = false ->
  escalationHTML h data = Ok [].
Proof.
  intros Hd He. unfold escalationHTML.
  rewrite (getProp_field _ _ Hd), bind_Ok, He. reflexivity.
Qed.

Lemma escalationHTML_present (data : Value) :
  nullish data = false -> isEscalation (field "escalation" data) = true ->
  let esc := field "escalation" data in
  escalationHTML h data =
    Ok (alertBanner (textOf (field "level" esc))
          (toUpperCase h (textOf (field "level" esc)))
          (textOf (field "message" esc))).
Proof.
  intros Hd He esc. subst esc. unfold escalationHTML.
  rewrite (getProp_field _ _ Hd), bind_Ok.
  destruct (field "escalation" data) as [| | | | | |props]; try discriminate.
  cbn [isEscalation] in He. apply andb_true_iff in He as [Hl Hm].
  cbn [truthy]. rewrite !getProp_obj, !bind_Ok.
  rewrite (toStr_text _ _ Hl), bind_Ok.
  rewrite (isText_inv _ Hl) at 1.
  cbn [callToUpperCase toStr mbind Result_bind].
  rewrite (toStr_text _ _ Hm). reflexivity.
Qed.

Lemma conditionsHTML_missing (data : Value) :
  nullish data = false -> nullish (field "probable_conditions" data) = true ->
  conditionsHTML h data = Ok [].
Proof.
  intros Hd Hn. unfold conditionsHTML.
  rewrite (getProp_field _ _ Hd), bind_Ok, orElse_falsy by by apply nullish_falsy.
  reflexivity.
Qed.

Lemma nextStepsHTML_missing (data : Value) :
  nullish data = false -> nullish (field "next_steps" data) = true ->
  nextStepsHTML h data = Ok [].
Proof.
  intros Hd Hn. unfold nextStepsHTML.
  rewrite (getProp_field _ _ Hd), bind_Ok, orElse_falsy by by apply nullish_falsy.
  reflexivity.
Qed.

Lemma conditionsHTML_sequence (data : Value) :
  nullish data = false ->
  optional (isSequence isCondition) (field "probable_conditions" data) = true ->
  exists blocks,
    Forall2 (fun c block => conditionHTML h c = Ok block)
      (entries (field "probable_conditions" data)) blocks
    /\ conditionsHTML h data = Ok (concat blocks).
Proof.
  intros Hd Hs. apply orb_true_iff in Hs as [Hn|Hs].
  - exists []. rewrite conditionsHTML_missing by done.
    split; [|done]. destruct (field _ data); try discriminate; constructor.
  - unfold conditionsHTML. rewrite (getProp_field _ _ Hd), bind_Ok.
    destruct (field "probable_conditions" data) as [| | | | |elems|];
      try discriminate.
    cbn [isSequence] in Hs. rewrite forallb_forall in Hs.
    pose (g := fun c =>
      conditionBlock (textOf (field "name" c))
        (confidenceClass h (field "confidence" c))
        (confidenceText (field "confidence" c))
        (textOf (field "rationale" c))).
    assert (Hall : Forall (fun c => conditionHTML h c = Ok (g c)) elems).
    { apply Forall_forall. intros c Hc.
      apply conditionHTML_condition, Hs. by apply list_elem_of_In. }
    exists (g <$> elems). split.
    + by apply mapR_Forall2, mapR_total.
    + cbn [orElse truthy mapJoin entries]. by rewrite (mapR_total _ g).
Qed.

Lemma nextStepsHTML_sequence (data : Value) :
  nullish data = false ->
  optional (isSequence isText) (field "next_steps" data) = true ->
  exists items,
    Forall2 (fun s item => item = lit "<li>" ++ textOf s ++ lit "</li>")
      (entries (field "next_steps" data)) items
    /\ nextStepsHTML h data = Ok (concat items).
Proof.
  intros Hd Hs. apply orb_true_iff in Hs as [Hn|Hs].
  - exists []. rewrite nextStepsHTML_missing by done.
    split; [|done]. destruct (field _ data); try discriminate; constructor.
  - unfold nextStepsHTML. rewrite (getProp_field _ _ Hd), bind_Ok.
    destruct (field "next_steps" data) as [| | | | |elems|]; try discriminate.
    cbn [isSequence] in Hs. rewrite forallb_forall in Hs.
    exists ((fun s => lit "<li>" ++ textOf s ++ lit "</li>") <$> elems). split.
    + cbn [entries]. clear Hs. induction elems; constructor; auto.
    + cbn [orElse truthy mapJoin].
      rewrite (mapR_total _ (fun s => lit "<li>" ++ textOf s ++ lit "</li>"));
        [reflexivity|].
      apply Forall_forall. intros c Hc.
      apply stepHTML_text, Hs. by apply list_elem_of_In.
Qed.

Lemma modelName_metadata (data : Value) :
  nullish data = false -> optional isMetadata (field "metadata" data) = true ->
  let m := field "model" (field "metadata" data) in
  modelName h data = Ok (if truthy m then textOf m else lit "local").
Proof.
  intros Hd Hm m. unfold modelName.
  rewrite (getProp_field _ _ Hd), bind_Ok. fold (field "model" (field "metadata" data)).
  fold m. unfold orElse.
  assert (Ht : optional isText m = true).
  { subst m. apply orb_true_iff in Hm as [Hm|Hm].
    - by destruct (field "metadata" data).
    - destruct (field "metadata" data); try discriminate.
      by apply andb_true_iff in Hm as [? _]. }
  destruct m as [| | | |s| |]; try discriminate; try reflexivity.
  by destruct (truthy (VStr s)).
Qed.

Lemma footerTime_metadata (now : float) (data : Value) :
  nullish data = false -> optional isMetadata (field "metadata" data) = true ->
  let t := field "timestamp" (field "metadata" data) in
  exists time,
    footerTime h now data = Ok time
    /\ (if truthy t then localeString h t = Ok time
        else time = dateToLocaleString h now).
Proof.
  intros Hd Hm t. unfold footerTime.
  rewrite (getProp_field _ _ Hd), bind_Ok.
  fold (field "timestamp" (field "metadata" data)). fold t. unfold orElse.
  assert (Ht : optional isInstant t = true).
  { subst t. apply orb_true_iff in Hm as [Hm|Hm].
    - by destruct (field "metadata" data).
    - destruct (field "metadata" data); try discriminate.
      by apply andb_true_iff in Hm as [_ ?]. }
  destruct (truthy t) eqn:Et.
  - destruct t; try discriminate; eexists; split; reflexivity.
  - eexists; split; reflexivity.
Qed.

End Renderer.

Lemma line_app (n : nat) (a b : jsstring) : line n (a ++ b) = line n a ++ b.
Proof. unfold line. by rewrite app_comm_cons, app_assoc. Qed.

(** The substitutions of the returned template come in this order, with
    fixed text around them. *)
Lemma resultCard_order :
  exists p0 p1 p2 p3 p4 p5 p6 : jsstring,
    forall disclaimer banner conditions nextSteps model time,
      resultCard disclaimer banner conditions nextSteps model time
      = p0 ++ disclaimer ++ p1 ++ banner ++ p2 ++ conditions ++ p3
        ++ nextSteps ++ p4 ++ model ++ p5 ++ time ++ p6.
Proof.
  exists (line 4 (lit "<div class=" ++ [dq] ++ lit "result-card" ++ [dq] ++ lit ">")
          ++ line 6 (lit "<p class=" ++ [dq] ++ lit "disclaimer" ++ [dq] ++ lit ">")).
  exists (lit "</p>" ++ line 6 []).
  exists (line 6 (lit "<h2>" ++ stethoscope ++ lit " Probable Conditions</h2>")
          ++ line 6 []).
  exists (line 6 (lit "<h2>" ++ compass ++ lit " Recommended Next Steps</h2>")
          ++ line 6 (lit "<ul>")).
  exists (lit "</ul>"
          ++ line 6 (lit "<div class=" ++ [dq] ++ lit "meta" ++ [dq] ++ lit ">")
          ++ line 8 (lit "<small><b>Model:</b> ")).
  exists (lit "</small> |" ++ line 8 (lit "<small>")).
  exists (lit "</small>" ++ line 6 (lit "</div>") ++ line 4 (lit "</div>")).
  intros d b c n m t. unfold resultCard.
  rewrite <- (app_nil_l b) at 1. rewrite <- (app_nil_l c) at 1.
  rewrite !line_app, <- !app_assoc. reflexivity.
Qed.

Lemma isAdvisory_fields (data : Value) :
  isAdvisory data = true ->
  nullish data = false
  /\ isText (field "disclaimer" data) = true
  /\ optional isEscalation (field "escalation" data) = true
  /\ optional (isSequence isCondition) (field "probable_conditions" data) = true
  /\ optional (isSequence isText) (field "next_steps" data) = true
  /\ optional isMetadata (field "metadata" data) = true.
Proof.
  destruct data; try discriminate. cbn [isAdvisory].
  rewrite !andb_true_iff. tauto.
Qed.

Lemma escalationHTML_advisory (h : Host) (data : Value) :
  nullish data = false ->
  optional isEscalation (field "escalation" data) = true ->
  let esc := field "escalation" data in
  escalationHTML h data =
    Ok (if nullish esc then []
        else alertBanner (textOf (field "level" esc))
               (toUpperCase h (textOf (field "level" esc)))
               (textOf (field "message" esc))).
Proof.
  intros Hd He esc. subst esc. apply orb_true_iff in He as [He|He].
  - rewrite He. apply escalationHTML_absent; [done|by apply nullish_falsy].
  - rewrite escalationHTML_present by done.
    by destruct (field "escalation" data).
Qed.

(** What the renderer returns on an advisory record, part by part. *)
Lemma buildResultHTML_advisory (h : Host) (now : float) (data : Value) :
  isAdvisory data = true ->
  exists banner blocks items model time,
    escalationHTML h data = Ok banner
    /\ conditionsHTML h data = Ok (concat blocks)
    /\ Forall2 (fun c block => conditionHTML h c = Ok block)
         (entries (field "probable_conditions" data)) blocks
    /\ nextStepsHTML h data = Ok (concat items)
    /\ Forall2 (fun s item => item = lit "<li>" ++ textOf s ++ lit "</li>")
         (entries (field "next_steps" data)) items
    /\ (let m := field "model" (field "metadata" data) in
        model = if truthy m then textOf m else lit "local")
    /\ (let t := field "timestamp" (field "metadata" data) in
        if truthy t then localeString h t = Ok time
        else time = dateToLocaleString h now)
    /\ buildResultHTML h now data =
         Ok (resultCard (textOf (field "disclaimer" data)) banner
               (concat blocks) (concat items) model time).
Proof.
  intros Ha. apply isAdvisory_fields in Ha as (Hd & Hdis & He & Hc & Hs & Hm).
  destruct (conditionsHTML_sequence h data Hd Hc) as (blocks & Hblocks & Hcs).
  destruct (nextStepsHTML_sequence h data Hd Hs) as (items & Hitems & Hns).
  destruct (footerTime_metadata h now data Hd Hm) as (time & Hft & Htime).
  pose proof (escalationHTML_advisory h data Hd He) as Hesc.
  pose proof (modelName_metadata h data Hd Hm) as Hmodel.
  cbv zeta in Hesc, Hmodel.
  eexists _, blocks, items, _, time.
  split; [exact Hesc|]. split; [exact Hcs|]. split; [exact Hblocks|].
  split; [exact Hns|]. split; [exact Hitems|].
  split; [reflexivity|]. split; [exact Htime|].
  unfold buildResultHTML.
  rewrite Hesc, bind_Ok, Hcs, bind_Ok, Hns, bind_Ok.
  rewrite (getProp_field _ _ Hd), bind_Ok, (toStr_text _ _ Hdis), bind_Ok.
  rewrite Hmodel, bind_Ok, Hft. reflexivity.
Qed.

Lemma line_nil (n : nat) (s : jsstring) : line n s = line n [] ++ s.
Proof. by rewrite <- line_app. Qed.

(** The three templates, written out. *)
Lemma resultCard_text (disclaimer banner conditions nextSteps model time : jsstring) :
  resultCard disclaimer banner conditions nextSteps model time =
    line 4 (lit "<div class=" ++ [dq] ++ lit "result-card" ++ [dq] ++ lit ">")
    ++ line 6 (lit "<p class=" ++ [dq] ++ lit "disclaimer" ++ [dq] ++ lit ">")
    ++ disclaimer ++ lit "</p>"
    ++ line 6 [] ++ banner
    ++ line 6 (lit "<h2>" ++ stethoscope ++ lit " Probable Conditions</h2>")
    ++ line 6 [] ++ conditions
    ++ line 6 (lit "<h2>" ++ compass ++ lit " Recommended Next Steps</h2>")
    ++ line 6 (lit "<ul>") ++ nextSteps ++ lit "</ul>"
    ++ line 6 (lit "<div class=" ++ [dq] ++ lit "meta" ++ [dq] ++ lit ">")
    ++ line 8 (lit "<small><b>Model:</b> ") ++ model ++ lit "</small> |"
    ++ line 8 (lit "<small>") ++ time ++ lit "</small>"
    ++ line 6 (lit "</div>")
    ++ line 4 (lit "</div>").
Proof.
  unfold resultCard. rewrite (line_nil 6 banner), (line_nil 6 conditions).
  rewrite !line_app, <- !app_assoc. reflexivity.
Qed.

Lemma alertBanner_text (cls tag text : jsstring) :
  alertBanner cls tag text =
    lit "<div class=" ++ [dq] ++ lit "alert " ++ cls ++ [dq] ++ lit ">"
    ++ line 8 (siren ++ lit " <b>") ++ tag ++ lit "</b>: " ++ text
    ++ line 6 (lit "</div>").
Proof. unfold alertBanner. rewrite !line_app, <- !app_assoc. reflexivity. Qed.

Lemma conditionBlock_text (name cls confidence rationale : jsstring) :
  conditionBlock name cls confidence rationale =
    line 6 (lit "<div class=" ++ [dq] ++ lit "condition" ++ [dq] ++ lit ">")
    ++ line 8 (lit "<h3>") ++ name ++ lit "</h3>"
    ++ line 8 (lit "<div class=" ++ [dq] ++ lit "confidence-bar ")
    ++ cls ++ [dq] ++ lit "><div></div></div>"
    ++ line 8 (lit "<p><b>Confidence:</b> ") ++ confidence ++ lit "</p>"
    ++ line 8 (lit "<p>") ++ rationale ++ lit "</p>"
    ++ line 6 (lit "</div>").
Proof. unfold conditionBlock. rewrite !line_app, <- !app_assoc. reflexivity. Qed.

Lemma conditionsHTML_blocks (h : Host) (data : Value) :
  nullish data = false ->
  optional (isSequence isCondition) (field "probable_conditions" data) = true ->
  conditionsHTML h data =
    Ok (concat ((fun c =>
          conditionBlock (textOf (field "name" c))
            (confidenceClass h (field "confidence" c))
            (confidenceText (field "confidence" c))
            (textOf (field "rationale" c)))
        <$> entries (field "probable_conditions" data))).
Proof.
  intros Hd Hs. apply orb_true_iff in Hs as [Hn|Hs].
  - rewrite conditionsHTML_missing by done.
    by destruct (field "probable_conditions" data).
  - unfold conditionsHTML. rewrite (getProp_field _ _ Hd), bind_Ok.
    destruct (field "probable_conditions" data) as [| | | | |elems|];
      try discriminate.
    cbn [isSequence] in Hs. rewrite forallb_forall in Hs.
    cbn [orElse truthy mapJoin entries].
    rewrite (mapR_total _ (fun c =>
      conditionBlock (textOf (field "name" c))
        (confidenceClass h (field "confidence" c))
        (confidenceText (field "confidence" c))
        (textOf (field "rationale" c)))); [done|].
    apply Forall_forall. intros c Hc.
    apply conditionHTML_condition, Hs. by apply list_elem_of_In.
Qed.

Lemma nextStepsHTML_items (h : Host) (data : Value) :
  nullish data = false ->
  optional (isSequence isText) (field "next_steps" data) = true ->
  nextStepsHTML h data =
    Ok (concat ((fun s => lit "<li>" ++ textOf s ++ lit "</li>")
                <$> entries (field "next_steps" data))).
Proof.
  intros Hd Hs. apply orb_true_iff in Hs as [Hn|Hs].
  - rewrite nextStepsHTML_missing by done.
    by destruct (field "next_steps" data).
  - unfold nextStepsHTML. rewrite (getProp_field _ _ Hd), bind_Ok.
    destruct (field "next_steps" data) as [| | | | |elems|]; try discriminate.
    cbn [isSequence] in Hs. rewrite forallb_forall in Hs.
    cbn [orElse truthy mapJoin entries].
    rewrite (mapR_total _ (fun s => lit "<li>" ++ textOf s ++ lit "</li>"));
      [done|].
    apply Forall_forall. intros c Hc.
    apply stepHTML_text, Hs. by apply list_elem_of_In.
Qed.

(** C7. For every advisory record the markup is, in this order and with
    this text around them: the disclaimer; the escalation banner, with the
    level, the level in capitals and the message, or nothing when there
    is no escalation; under the first heading one block per probable
    condition in sequence order, each with the name, the confidence bar
    of the lower-cased confidence, the confidence and the rationale;
    under the second heading one list item per next step in sequence
    order; the footer with the model name, which is the literal local
    when the record has none, and the time, which is the clock's when the
    record has none. *)
Theorem buildResultHTML_sections (h : Host) (now : float) (data : Value) :
  isAdvisory data = true ->
  exists banner blocks items model time,
    buildResultHTML h now data =
      Ok (line 4 (lit "<div class=" ++ [dq] ++ lit "result-card" ++ [dq] ++ lit ">")
          ++ line 6 (lit "<p class=" ++ [dq] ++ lit "disclaimer" ++ [dq] ++ lit ">")
          ++ textOf (field "disclaimer" data) ++ lit "</p>"
          ++ line 6 [] ++ banner
          ++ line 6 (lit "<h2>" ++ stethoscope ++ lit " Probable Conditions</h2>")
          ++ line 6 [] ++ concat blocks
          ++ line 6 (lit "<h2>" ++ compass ++ lit " Recommended Next Steps</h2>")
          ++ line 6 (lit "<ul>") ++ concat items ++ lit "</ul>"
          ++ line 6 (lit "<div class=" ++ [dq] ++ lit "meta" ++ [dq] ++ lit ">")
          ++ line 8 (lit "<small><b>Model:</b> ") ++ model ++ lit "</small> |"
          ++ line 8 (lit "<small>") ++ time ++ lit "</small>"
          ++ line 6 (lit "</div>")
          ++ line 4 (lit "</div>"))
    /\ (let esc := field "escalation" data in
        banner =
          if nullish esc then []
          else lit "<div class=" ++ [dq] ++ lit "alert "
               ++ textOf (field "level" esc) ++ [dq] ++ lit ">"
               ++ line 8 (siren ++ lit " <b>")
               ++ toUpperCase h (textOf (field "level" esc)) ++ lit "</b>: "
               ++ textOf (field "message" esc)
               ++ line 6 (lit "</div>"))
    /\ Forall2
         (fun c block =>
            block =
              line 6 (lit "<div class=" ++ [dq] ++ lit "condition" ++ [dq] ++ lit ">")
              ++ line 8 (lit "<h3>") ++ textOf (field "name" c) ++ lit "</h3>"
              ++ line 8 (lit "<div class=" ++ [dq] ++ lit "confidence-bar ")
              ++ confidenceClass h (field "confidence" c) ++ [dq]
              ++ lit "><div></div></div>"
              ++ line 8 (lit "<p><b>Confidence:</b> ")
              ++ confidenceText (field "confidence" c) ++ lit "</p>"
              ++ line 8 (lit "<p>") ++ textOf (field "rationale" c) ++ lit "</p>"
              ++ line 6 (lit "</div>"))
         (entries (field "probable_conditions" data)) blocks
    /\ Forall2 (fun s item => item = lit "<li>" ++ textOf s ++ lit "</li>")
         (entries (field "next_steps" data)) items
    /\ (let m := field "model" (field "metadata" data) in
        model = if truthy m then textOf m else lit "local")
    /\ (let t := field "timestamp" (field "metadata" data) in
        if truthy t then localeString h t = Ok time
        else time = dateToLocaleString h now).
Proof.
  intros Ha. apply isAdvisory_fields in Ha as (Hd & Hdis & He & Hc & Hs & Hm).
  destruct (footerTime_metadata h now data Hd Hm) as (time & Hft & Htime).
  pose proof (escalationHTML_advisory h data Hd He) as Hesc.
  pose proof (modelName_metadata h data Hd Hm) as Hmodel.
  pose proof (conditionsHTML_blocks h data Hd Hc) as Hcs.
  pose proof (nextStepsHTML_items h data Hd Hs) as Hns.
  cbv zeta in Hesc, Hmodel.
  assert (Hb : buildResultHTML h now data =
    Ok (resultCard (textOf (field "disclaimer" data))
          (if nullish (field "escalation" data) then []
           else alertBanner (textOf (field "level" (field "escalation" data)))
                  (toUpperCase h (textOf (field "level" (field "escalation" data))))
                  (textOf (field "message" (field "escalation" data))))
          (concat ((fun c =>
             conditionBlock (textOf (field "name" c))
               (confidenceClass h (field "confidence" c))
               (confidenceText (field "confidence" c))
               (textOf (field "rationale" c)))
           <$> entries (field "probable_conditions" data)))
          (concat ((fun s => lit "<li>" ++ textOf s ++ lit "</li>")
                   <$> entries (field "next_steps" data)))
          (if truthy (field "model" (field "metadata" data))
           then textOf (field "model" (field "metadata" data)) else lit "local")
          time)).
  { unfold buildResultHTML.
    rewrite Hesc, bind_Ok, Hcs, bind_Ok, Hns, bind_Ok.
    rewrite (getProp_field _ _ Hd), bind_Ok, (toStr_text _ _ Hdis), bind_Ok.
    rewrite Hmodel, bind_Ok, Hft. reflexivity. }
  eexists _, _, _, _, time.
  split; [rewrite Hb, resultCard_text; reflexivity|].
  split; [cbv zeta; destruct (nullish (field "escalation" data));
          [reflexivity|apply alertBanner_text]|].
  split.
  { apply Forall2_fmap_r, Forall_Forall2_diag, Forall_forall.
    intros c _. apply conditionBlock_text. }
  split.
  { apply Forall2_fmap_r, Forall_Forall2_diag, Forall_forall.
    intros s _. reflexivity. }
  split; [reflexivity|exact Htime].
Qed.

Lemma buildResultHTML_sections_witness :
  exists markup (blocks : list jsstring),
    buildResultHTML plainHost 0%float soreThroat = Ok markup
    /\ length blocks = length (entries (field "probable_conditions" soreThroat)).
Proof.
  destruct (buildResultHTML_sections plainHost 0%float soreThroat eq_refl)
    as (banner & blocks & items & model & time & Hb & _ & Hblocks & _).
  eexists _, blocks. split; [exact Hb|].
  symmetry. exact (Forall2_length _ _ _ Hblocks).
Defined.

(** C10. On a record whose probable_conditions or next_steps is null or
    missing the renderer does not raise: it returns the complete markup,
    and each such field contributes what an empty sequence does, an empty
    conditions section or an empty list. *)
Theorem buildResultHTML_missing_sequences (h : Host) (now : float) (data : Value) :
  isAdvisory data = true ->
  exists banner conditions nextSteps model time,
    buildResultHTML h now data =
      Ok (resultCard (textOf (field "disclaimer" data)) banner conditions
            nextSteps model time)
    /\ conditionsHTML h data = Ok conditions
    /\ nextStepsHTML h data = Ok nextSteps
    /\ (nullish (field "probable_conditions" data) = true ->
        conditions = [] /\ mapJoin (conditionHTML h) (VArr []) = Ok conditions)
    /\ (nullish (field "next_steps" data) = true ->
        nextSteps = [] /\ mapJoin (stepHTML h) (VArr []) = Ok nextSteps).
Proof.
  intros Ha.
  destruct (buildResultHTML_advisory h now data Ha)
    as (banner & blocks & items & model & time
        & _ & Hcs & _ & Hns & _ & _ & _ & Hb).
  apply isAdvisory_fields in Ha as (Hd & _).
  exists banner, (concat blocks), (concat items), model, time.
  split; [exact Hb|]. split; [exact Hcs|]. split; [exact Hns|]. split.
  - intros Hn. rewrite conditionsHTML_missing in Hcs by done.
    injection Hcs as <-. done.
  - intros Hn. rewrite nextStepsHTML_missing in Hns by done.
    injection Hns as <-. done.
Qed.

Lemma buildResultHTML_missing_sequences_witness :
  exists markup,
    buildResultHTML plainHost 0%float
      (obj [("disclaimer", str "Educational use only.");
            ("probable_conditions", VNull)]) = Ok markup.
Proof.
  destruct (buildResultHTML_missing_sequences plainHost 0%float
              (obj [("disclaimer", str "Educational use only.");
                    ("probable_conditions", VNull)]) eq_refl)
    as (banner & conditions & nextSteps & model & time & Hb & _).
  eexists. exact Hb.
Defined.

Lemma alertBanner_contains (cls tag text : jsstring) :
  contains cls (alertBanner cls tag text)
  /\ contains (lit "<b>" ++ tag ++ lit "</b>") (alertBanner cls tag text)
  /\ contains text (alertBanner cls tag text).
Proof.
  unfold alertBanner. split; [|split].
  - exists (lit "<div class=" ++ [dq] ++ lit "alert "),
      ([dq] ++ lit ">"
       ++ line 8 (siren ++ lit " <b>" ++ tag ++ lit "</b>: " ++ text)
       ++ line 6 (lit "</div>")).
    by rewrite <- !app_assoc.
  - exists (lit "<div class=" ++ [dq] ++ lit "alert " ++ cls ++ [dq] ++ lit ">"
            ++ line 8 (siren ++ lit " ")),
      (lit ": " ++ text ++ line 6 (lit "</div>")).
    change (lit "</b>: ") with (lit "</b>" ++ lit ": ").
    change (lit " <b>") with (lit " " ++ lit "<b>").
    rewrite !line_app, <- !app_assoc. reflexivity.
  - exists (lit "<div class=" ++ [dq] ++ lit "alert " ++ cls ++ [dq] ++ lit ">"
            ++ line 8 (siren ++ lit " <b>" ++ tag ++ lit "</b>: ")),
      (line 6 (lit "</div>")).
    rewrite !line_app, <- !app_assoc. reflexivity.
Qed.

Lemma alertBanner_nonempty (cls tag text : jsstring) : alertBanner cls tag text <> [].
Proof. discriminate. Qed.

(** C6. For every advisory record the renderer emits an escalation banner
    exactly when the record has an escalation, and the banner then carries
    the level, the level tag in capitals and the message as it is; the
    banner is part of the markup. *)
Theorem escalation_banner_iff_present (h : Host) (now : float) (data : Value) :
  isAdvisory data = true ->
  let esc := field "escalation" data in
  let level := textOf (field "level" esc) in
  let msg := textOf (field "message" esc) in
  exists banner,
    escalationHTML h data = Ok banner
    /\ (banner <> [] <-> nullish esc = false)
    /\ (nullish esc = false ->
        banner = alertBanner level (toUpperCase h level) msg
        /\ contains level banner
        /\ contains (lit "<b>" ++ toUpperCase h level ++ lit "</b>") banner
        /\ contains msg banner)
    /\ exists before after,
         buildResultHTML h now data = Ok (before ++ banner ++ after).
Proof.
  intros Ha esc level msg.
  destruct (buildResultHTML_advisory h now data Ha)
    as (banner & blocks & items & model & time & Hesc & _ & _ & _ & _ & _ & _ & Hb).
  destruct resultCard_order as (p0 & p1 & p2 & p3 & p4 & p5 & p6 & Hord).
  apply isAdvisory_fields in Ha as (Hd & _ & He & _).
  pose proof (escalationHTML_advisory h data Hd He) as Hesc'. cbv zeta in Hesc'.
  rewrite Hesc in Hesc'. injection Hesc' as Hbanner. fold esc in Hbanner.
  fold level in Hbanner. fold msg in Hbanner.
  exists banner. split; [exact Hesc|]. split; [|split].
  - rewrite Hbanner. destruct (nullish esc); split;
      first [done | intros _; apply alertBanner_nonempty].
  - intros Hn. rewrite Hn in Hbanner. rewrite Hbanner.
    split; [reflexivity|]. apply alertBanner_contains.
  - eexists (p0 ++ textOf (field "disclaimer" data) ++ p1), _.
    rewrite Hb, Hord, <- !app_assoc. reflexivity.
Qed.

Lemma escalation_banner_iff_present_witness :
  exists banner,
    escalationHTML plainHost chestPain = Ok banner
    /\ contains (lit "Seek emergency care") banner.
Proof.
  destruct (escalation_banner_iff_present plainHost 0%float chestPain eq_refl)
    as (banner & Hesc & _ & Hpresent & _).
  exists banner. split; [exact Hesc|]. apply (Hpresent eq_refl).
Defined.

(** ** The clock *)

Lemma footerTime_clock (h : Host) (now1 now2 : float) (data : Value) :
  truthy (field "timestamp" (field "metadata" data)) = true
  \/ dateToLocaleString h now1 = dateToLocaleString h now2 ->
  footerTime h now1 data = footerTime h now2 data.
Proof.
  intros Hc. unfold footerTime.
  destruct (nullish data) eqn:Hd; [by destruct data|].
  rewrite (getProp_field _ _ Hd), !bind_Ok.
  fold (field "timestamp" (field "metadata" data)). unfold orElse.
  destruct (truthy (field "timestamp" (field "metadata" data))); [done|].
  destruct Hc as [Hc|Hc]; [done|].
  unfold localeString. cbn [newDate mbind Result_bind]. by rewrite Hc.
Qed.

(** C3, as the code has it. The renderer keeps no state and reads nothing
    but the record and the clock, and the clock only for a record without
    a timestamp: two calls on a record that has one return the same
    markup whatever the clock reads, and two calls on any record return
    the same markup when the clock reads the same formatted time. *)
Theorem buildResultHTML_deterministic (h : Host) (now1 now2 : float) (data : Value) :
  truthy (field "timestamp" (field "metadata" data)) = true
  \/ dateToLocaleString h now1 = dateToLocaleString h now2 ->
  buildResultHTML h now1 data = buildResultHTML h now2 data.
Proof.
  intros Hc. unfold buildResultHTML.
  by rewrite (footerTime_clock h now1 now2 data Hc).
Qed.

Lemma buildResultHTML_deterministic_witness :
  buildResultHTML plainHost 0%float soreThroat
  = buildResultHTML plainHost 1762041600000%float soreThroat.
Proof.
  apply (buildResultHTML_deterministic plainHost 0%float 1762041600000%float
           soreThroat).
  left. vm_compute. reflexivity.
Defined.

(** C3 as stated fails: on a record without a timestamp, two calls a day
    apart return different markup. *)
Lemma buildResultHTML_reads_clock :
  buildResultHTML plainHost 0%float chestPain
  <> buildResultHTML plainHost 86400000%float chestPain.
Proof. vm_compute. discriminate. Qed.

(** ** Confidence *)

Lemma conditionBlock_contains (name cls confidence rationale : jsstring) :
  let block := conditionBlock name cls confidence rationale in
  contains (lit "<div class=" ++ [dq] ++ lit "confidence-bar " ++ cls ++ [dq]
            ++ lit "><div></div></div>") block
  /\ contains (lit "<p><b>Confidence:</b> " ++ confidence ++ lit "</p>") block.
Proof.
  intros block. subst block. unfold conditionBlock.
  split; auto 8 with contains.
Qed.

Lemma lowerUnit_ascii (c c' : N) :
  (c <? 128)%N = true -> lowerUnit c' = lowerUnit c -> (c' <? 128)%N = true.
Proof.
  unfold lowerUnit. intros Hc%N.ltb_lt.
  destruct ((65 <=? c') && (c' <=? 90))%N eqn:E'.
  - intros _. apply andb_true_iff in E' as [_ ?%N.leb_le]. apply N.ltb_lt. lia.
  - destruct ((65 <=? c) && (c <=? 90))%N eqn:E.
    + apply andb_true_iff in E as [_ ?%N.leb_le]. intros ->. apply N.ltb_lt. lia.
    + intros ->. by apply N.ltb_lt.
Qed.

Lemma isAscii_same_letters (s s' : jsstring) :
  isAscii s = true -> lowerUnit <$> s' = lowerUnit <$> s -> isAscii s' = true.
Proof.
  revert s'. induction s as [|c s IH]; intros [|c' s']; try done.
  cbn [isAscii forallb fmap list_fmap]. intros [Hc Hs]%andb_true_iff [= Hu Hrest].
  apply andb_true_iff. split; [by eapply lowerUnit_ascii|by apply IH].
Qed.

Lemma toLowerCase_same_letters (h : Host) (s s' : jsstring) :
  isAscii s = true -> lowerUnit <$> s' = lowerUnit <$> s ->
  toLowerCase h s' = toLowerCase h s.
Proof.
  intros Hs Heq. unfold toLowerCase.
  by rewrite Hs, (isAscii_same_letters s s' Hs Heq).
Qed.

(** C4, as the code has it. Confidence values that differ only in letter
    case give the same confidence-bar class, the value in lower case; a
    condition whose confidence is a string other than the three levels is
    rendered all the same, with a confidence bar of that class and the
    value as written in the text. *)
Theorem confidence_class_ignores_case (h : Host) (c : Value) (s : jsstring) :
  isCondition c = true -> field "confidence" c = VStr s ->
  exists block,
    conditionHTML h c = Ok block
    /\ contains (lit "<div class=" ++ [dq] ++ lit "confidence-bar "
                 ++ toLowerCase h s ++ [dq] ++ lit "><div></div></div>") block
    /\ contains (lit "<p><b>Confidence:</b> " ++ s ++ lit "</p>") block
    /\ (forall s', isAscii s = true -> lowerUnit <$> s' = lowerUnit <$> s ->
        toLowerCase h s' = toLowerCase h s)
    /\ toLowerCase h (lit "Low") = lit "low"
    /\ toLowerCase h (lit "LOW") = lit "low"
    /\ toLowerCase h (lit "low") = lit "low".
Proof.
  intros Hc Hs. eexists. split; [by apply conditionHTML_condition|].
  rewrite Hs. cbn [confidenceClass confidenceText].
  split; [apply conditionBlock_contains|]. split; [apply conditionBlock_contains|].
  split; [apply toLowerCase_same_letters|]. done.
Qed.

Lemma confidence_class_ignores_case_witness :
  exists block,
    conditionHTML plainHost
      (obj [("name", str "Flu"); ("confidence", str "LOW");
            ("rationale", str "Seasonal.")]) = Ok block
    /\ contains (lit "<div class=" ++ [dq] ++ lit "confidence-bar "
                 ++ toLowerCase plainHost (lit "LOW") ++ [dq]
                 ++ lit "><div></div></div>") block.
Proof.
  destruct (confidence_class_ignores_case plainHost
              (obj [("name", str "Flu"); ("confidence", str "LOW");
                    ("rationale", str "Seasonal.")]) (lit "LOW") eq_refl eq_refl)
    as (block & Hb & Hbar & _).
  exists block. split; [exact Hb|exact Hbar].
Defined.

(** C4 as stated fails: a condition whose confidence is none of the three
    levels is rendered with a confidence indicator. *)
Lemma conditionHTML_unrecognized_confidence :
  let block := conditionBlock (lit "Flu") (lit "maybe") (lit "maybe") (lit "Seasonal.") in
  conditionHTML plainHost maybeFlu = Ok block
  /\ contains (lit "<div class=" ++ [dq] ++ lit "confidence-bar maybe" ++ [dq]
               ++ lit "><div></div></div>") block
  /\ contains (lit "<p><b>Confidence:</b> maybe</p>") block.
Proof.
  intros block. split; [vm_compute; reflexivity|].
  apply (conditionBlock_contains (lit "Flu") (lit "maybe") (lit "maybe")
           (lit "Seasonal.")).
Qed.

(** A confidence that is a number has no [toLowerCase]: the block, and
    with it the whole record, fails to render. *)
Lemma conditionHTML_numeric_confidence (h : Host) (now : float) :
  let c := obj [("name", str "Flu"); ("confidence", VNum 1%float);
                ("rationale", str "Seasonal.")] in
  conditionHTML h c = Throw TypeError
  /\ buildResultHTML h now
       (obj [("disclaimer", str "Educational use only.");
             ("probable_conditions", VArr [c])]) = Throw TypeError.
Proof. split; reflexivity. Qed.

(** ** The history sidebar *)

Lemma historyItem_instant (h : Host) (r : HistoryRecord) :
  isInstant (timestamp r) = true ->
  exists when,
    historyItem h r = Ok {| textContent := preview (symptoms r); title := when;
                            opens := Some (query_id r) |}.
Proof.
  intros Ht. unfold historyItem.
  destruct (timestamp r); try discriminate; eexists; reflexivity.
Qed.

Lemma mapR_lookup {A B} (f : A -> Result B) (l : list A) (ys : list B) (n : nat) (x : A) :
  mapR f l = Ok ys -> l !! n = Some x -> exists y, ys !! n = Some y /\ f x = Ok y.
Proof.
  intros Hm%mapR_Forall2 Hx.
  destruct (Forall2_lookup_l _ _ _ _ _ Hm Hx) as (y & Hy & Hf). eauto.
Qed.

Lemma mapR_instants (h : Host) (history : list HistoryRecord) :
  Forall (fun r => isInstant (timestamp r) = true) history ->
  exists items, mapR (historyItem h) history = Ok items.
Proof.
  induction 1 as [|r history Hr _ (items & IH)]; [by eexists|].
  destruct (historyItem_instant h r Hr) as (when & Hi).
  eexists. cbn [mapR]. rewrite Hi, bind_Ok, IH. reflexivity.
Qed.

(** C5. For every entry of a history reply, the list item shows the first
    50 units of the symptoms followed by three dots when the symptoms are
    longer than 50, and the symptoms as they are otherwise. *)
Theorem history_preview (h : Host) (history : list HistoryRecord) (p : Page)
    (n : nat) (r : HistoryRecord) :
  Forall (fun r => isInstant (timestamp r) = true) history ->
  history !! n = Some r ->
  exists item,
    historyList (loadHistory_settled h (Ok history) p) !! n = Some item
    /\ textContent item = preview (symptoms r)
    /\ (50 < length (symptoms r) ->
        preview (symptoms r) = take 50 (symptoms r) ++ lit "..."
        /\ length (take 50 (symptoms r)) = 50)
    /\ (length (symptoms r) <= 50 -> preview (symptoms r) = symptoms r).
Proof.
  intros Hall Hr.
  destruct (mapR_instants h history Hall) as (items & Hitems).
  destruct (mapR_lookup _ _ _ _ _ Hitems Hr) as (item & Hitem & Hf).
  exists item. split; [|split; [|split]].
  - unfold loadHistory_settled. cbn [historyList setHistoryList].
    destruct history as [|r0 rest]; [done|]. by rewrite Hitems.
  - apply Forall_forall with (x := r) in Hall; [|by eapply list_elem_of_lookup_2].
    destruct (historyItem_instant h r Hall) as (when & Hi).
    rewrite Hi in Hf. by injection Hf as <-.
  - intros Hlong. unfold preview. rewrite decide_True by done.
    split; [done|]. rewrite length_take. lia.
  - intros Hshort. unfold preview. rewrite decide_False by lia. done.
Qed.

Lemma history_preview_witness :
  exists item,
    historyList (loadHistory_settled plainHost (Ok sampleHistory)
                   (initialPage [] (lit "Analyze"))) !! 1 = Some item
    /\ textContent item
       = lit "chest pain and shortness of breath since this morn" ++ lit "...".
Proof.
  destruct (history_preview plainHost sampleHistory
              (initialPage [] (lit "Analyze")) 1
              {| query_id := str "q2";
                 symptoms := lit "chest pain and shortness of breath since this morning";
                 timestamp := VNum 172800000%float; model_response := VNull |})
    as (item & Hitem & Htext & Hlong & _).
  - repeat constructor.
  - reflexivity.
  - exists item. split; [exact Hitem|]. rewrite Htext.
    apply Hlong. vm_compute. lia.
Defined.

(** C9. When the history reply holds no entry with this query_id and a
    saved response, loading the result shows the no-saved-response
    message, not the message of an exception, and starts no interval. *)
Theorem loadResultById_no_saved_response (h : Host) (now : float)
    (queryId : Value) (history : list HistoryRecord) (p : Page) (n : nat) :
  (forall r, r ∈ history -> strictEq (query_id r) queryId = true ->
             truthy (model_response r) = false) ->
  pendingLookups p !! n = Some queryId ->
  exists p',
    step h (LookupSettled n now (Ok history)) p = Some p'
    /\ resultEl p' = noSavedResponse
    /\ timers p' = timers p
    /\ nextTimer p' = nextTimer p
    /\ resultEl (loadResultById_settled h now queryId (Ok history) p)
       = noSavedResponse.
Proof.
  intros Hnone Hpending.
  assert (Hsettled : forall q,
    loadResultById_settled h now queryId (Ok history) q
    = setResult noSavedResponse q).
  { intros q. unfold loadResultById_settled.
    destruct (find _ history) as [record|] eqn:Hfind; [|done].
    apply find_some in Hfind as [Hin Heq].
    rewrite (Hnone record); [done| |done]. by apply list_elem_of_In. }
  eexists. cbn [step]. rewrite Hpending. cbn [mbind option_bind].
  split; [reflexivity|]. rewrite !Hsettled. done.
Qed.

Lemma loadResultById_no_saved_response_witness :
  resultEl (loadResultById_settled plainHost 0%float (str "q2") (Ok sampleHistory)
              (initialPage [] (lit "Analyze")))
  = noSavedResponse.
Proof.
  destruct (loadResultById_no_saved_response plainHost 0%float (str "q2")
              sampleHistory
              {| resultEl := []; historyList := []; btnDisabled := false;
                 btnText := lit "Analyze"; timers := ∅; nextTimer := 1;
                 pendingAnalyze := 0; pendingHistory := 1;
                 pendingLookups := [str "q2"]; pendingClear := 0 |} 0)
    as (p' & _ & _ & _ & _ & Hshown).
  - intros r Hr Heq.
    apply list_elem_of_In in Hr. cbn in Hr.
    destruct Hr as [<-|[<-|[]]]; [discriminate Heq|reflexivity].
  - reflexivity.
  - exact Hshown.
Defined.

(** ** The typing effect *)

Section Reveal.
Context (h : Host).



Lemma buildResultHTML_nonempty (now : float) (data : Value) (markup : jsstring) :
  buildResultHTML h now data = Ok markup -> markup <> [].
Proof.
  unfold buildResultHTML. intros Hb.
  repeat (apply bind_Ok_inv in Hb as (? & _ & Hb)).
  injection Hb as <-. discriminate.
Qed.

Lemma typeResult_Ok_inv (now : float) (data : Value) (p p' : Page) :
  typeResult h now data p = Ok p' ->
  exists markup,
    buildResultHTML h now data = Ok markup
    /\ p' = setTimers (<[nextTimer p := {| html := markup; i := 0; tempDiv := [] |}]>
                        (timers p))
              (S (nextTimer p)) (setResult [] p).
Proof.
  unfold typeResult. intros Ht.
  apply bind_Ok_inv in Ht as (markup & Hb & [= <-]). eauto.
Qed.





End Reveal.

Lemma take_proper (k : nat) (s : jsstring) : k < length s -> take k s <> s.
Proof.
  intros Hk Heq. apply (f_equal length) in Heq. rewrite length_take in Heq. lia.
Qed.



(** ** The event loop *)

Section EventLoop.
Context (h : Host).

Lemma run_invariant (I : Page -> Prop) :
  (forall e p p', I p -> step h e p = Some p' -> I p') ->
  forall es p q, I p -> run h es p = Some q -> I q.
Proof.
  intros Hstep es. induction es as [|e es IH]; intros p q Hp Hrun.
  - by injection Hrun as <-.
  - cbn [run] in Hrun. destruct (step h e p) as [p'|] eqn:He; [|done].
    eapply IH; [|exact Hrun]. by eapply Hstep.
Qed.

(** [typeResult] touches the display and the intervals, nothing else. *)
Lemma typeResult_frame (now : float) (data : Value) (p p' : Page) :
  typeResult h now data p = Ok p' ->
  btnDisabled p' = btnDisabled p /\ pendingAnalyze p' = pendingAnalyze p
  /\ nextTimer p' = S (nextTimer p)
  /\ (forall id, id <> nextTimer p -> timers p' !! id = timers p !! id)
  /\ is_Some (timers p' !! nextTimer p).
Proof.
  intros (markup & _ & ->)%typeResult_Ok_inv. cbn.
  repeat split; try done.
  - intros id Hid. by rewrite lookup_insert_ne.
  - rewrite lookup_insert_eq. eauto.
Qed.

Lemma tick_frame (id : nat) (p p' : Page) :
  tick h id p = Some p' ->
  btnDisabled p' = btnDisabled p /\ pendingAnalyze p' = pendingAnalyze p
  /\ nextTimer p' = nextTimer p
  /\ (forall id', is_Some (timers p' !! id') -> is_Some (timers p !! id')).
Proof.
  unfold tick. destruct (timers p !! id) as [t|] eqn:Ht; [|done].
  cbn [mbind option_bind]. intros [= <-].
  destruct (decide _); cbn; repeat split; try done.
  - intros id'. destruct (decide (id = id')) as [<-|Hne].
    + rewrite lookup_delete_eq. by intros [].
    + by rewrite lookup_delete_ne.
  - intros id'. destruct (decide (id = id')) as [<-|Hne].
    + rewrite Ht. eauto.
    + by rewrite lookup_insert_ne.
Qed.

Lemma timersFresh_typeResult (now : float) (data : Value) (p p' : Page) :
  timersFresh p -> typeResult h now data p = Ok p' -> timersFresh p'.
Proof.
  intros Hf (_ & _ & Hnext & Hother & _)%typeResult_frame id Hid.
  rewrite Hnext. destruct (decide (id = nextTimer p)) as [->|Hne]; [lia|].
  rewrite Hother in Hid by done. apply Hf in Hid. lia.
Qed.

Lemma timersFresh_step (e : Event) (p p' : Page) :
  timersFresh p -> step h e p = Some p' -> timersFresh p'.
Proof.
  intros Hf. destruct e as [|now reply|reply|n|n now reply| |reply|id]; cbn [step].
  - destruct (btnDisabled p); [done|]. by intros [= <-].
  - destruct (decide _); [|done]. intros [= <-]. unfold submit_settled.
    destruct reply as [data|e]; cbn [mbind Result_bind]; [|done].
    destruct (typeResult h now data p) as [p1|e] eqn:Ht; cbn [mbind Result_bind];
      [|done].
    by apply (timersFresh_typeResult now data p p1).
  - destruct (decide _); [|done]. by intros [= <-].
  - destruct (historyList p !! n) as [item|]; [|done]. cbn [mbind option_bind].
    destruct (opens item); [|done]. by intros [= <-].
  - destruct (pendingLookups p !! n) as [queryId|]; [|done].
    cbn [mbind option_bind]. intros [= <-]. unfold loadResultById_settled.
    destruct reply as [history|e]; [|done].
    destruct (find _ history) as [record|]; [|done].
    destruct (truthy _); [|done].
    set (p0 := setPending _ _ _ _ p).
    destruct (typeResult h now (model_response record) p0) as [p1|e] eqn:Ht; [|done].
    by apply (timersFresh_typeResult now (model_response record) p0 p1).
  - by intros [= <-].
  - destruct (decide _); [|done]. intros [= <-]. unfold clear_settled.
    by destruct (reply ≫= _).
  - intros (_ & _ & Hnext & Hsub)%tick_frame id' Hid'.
    rewrite Hnext. by apply Hf, Hsub.
Qed.

Lemma reachable_timersFresh (p : Page) : reachable h p -> timersFresh p.
Proof.
  intros (result & label & es & Hrun).
  eapply (run_invariant timersFresh timersFresh_step); [|exact Hrun].
  intros id. cbn. rewrite lookup_empty. by intros [].
Qed.

Lemma oneAnalysis_step (e : Event) (p p' : Page) :
  oneAnalysis p -> step h e p = Some p' -> oneAnalysis p'.
Proof.
  unfold oneAnalysis. intros [Hle Hiff].
  destruct e as [|now reply|reply|n|n now reply| |reply|id]; cbn [step].
  - destruct (btnDisabled p) eqn:Hb; [done|]. intros [= <-]. cbn.
    assert (pendingAnalyze p = 0) as ->; [|split; [lia|done]].
    destruct (decide (pendingAnalyze p = 1)) as [H1|H1]; [|lia].
    apply Hiff in H1. congruence.
  - destruct (decide _) as [Hpos|]; [|done]. intros [= <-]. unfold submit_settled.
    assert (H1 : pendingAnalyze p = 1) by lia.
    destruct reply as [data|e]; cbn [mbind Result_bind]; [|cbn; rewrite H1; cbn; split; [lia|done]].
    destruct (typeResult h now data p) as [p1|e] eqn:Ht; cbn [mbind Result_bind].
    + apply typeResult_frame in Ht as (_ & Hp & _). cbn. rewrite Hp, H1. cbn.
      split; [lia|done].
    + cbn. rewrite H1. cbn. split; [lia|done].
  - destruct (decide _); [|done]. by intros [= <-].
  - destruct (historyList p !! n) as [item|]; [|done]. cbn [mbind option_bind].
    destruct (opens item); [|done]. by intros [= <-].
  - destruct (pendingLookups p !! n) as [queryId|]; [|done].
    cbn [mbind option_bind]. intros [= <-]. unfold loadResultById_settled.
    destruct reply as [history|e]; [|done].
    destruct (find _ history) as [record|]; [|done].
    destruct (truthy _); [|done].
    set (p0 := setPending _ _ _ _ p).
    destruct (typeResult h now (model_response record) p0) as [p1|e] eqn:Ht; [|done].
    apply typeResult_frame in Ht as (-> & -> & _). done.
  - by intros [= <-].
  - destruct (decide _); [|done]. intros [= <-]. unfold clear_settled.
    by destruct (reply ≫= _).
  - intros (-> & -> & _)%tick_frame. done.
Qed.

End EventLoop.

(** C2, as the code has it. When [typeResult] is called while an earlier
    reveal is still running, the display is emptied and a new interval
    starts from the empty prefix; the earlier interval is not cleared: it
    stays active as it was, and its next firing writes its own next prefix
    over the display. *)
Theorem typeResult_keeps_running_reveal (h : Host) (now : float) (data : Value)
    (p p' : Page) (id : nat) (t : Timer) :
  reachable h p -> timers p !! id = Some t ->
  typeResult h now data p = Ok p' ->
  resultEl p' = []
  /\ (exists markup,
        buildResultHTML h now data = Ok markup
        /\ timers p' !! nextTimer p
           = Some {| html := markup; i := 0; tempDiv := [] |})
  /\ id <> nextTimer p
  /\ timers p' !! id = Some t
  /\ exists q,
       step h (Tick id) p' = Some q
       /\ resultEl q = reserialize h (take (i t) (html t)).
Proof.
  intros Hreach Ht Htype.
  assert (Hne : id <> nextTimer p).
  { apply reachable_timersFresh in Hreach.
    assert (id < nextTimer p) by (apply Hreach; eauto). lia. }
  apply typeResult_Ok_inv in Htype as (markup & Hb & ->).
  split; [done|]. split.
  { exists markup. split; [done|]. cbn. apply lookup_insert_eq. }
  split; [done|].
  assert (Ht' : timers (setTimers
                  (<[nextTimer p := {| html := markup; i := 0; tempDiv := [] |}]>
                     (timers p)) (S (nextTimer p)) (setResult [] p)) !! id = Some t).
  { cbn. by rewrite lookup_insert_ne. }
  split; [exact Ht'|]. cbn [step]. unfold tick. rewrite Ht'.
  cbn [mbind option_bind]. eexists. split; [reflexivity|].
  by destruct (decide _).
Qed.

(** C2 as stated fails: after a second [typeResult] the first interval is
    still active, and its next firing puts its own prefix on the display
    that the second call had emptied. *)
Lemma typeResult_does_not_cancel :
  exists p q,
    run plainHost overlappingReveals (initialPage [] (lit "Analyze")) = Some p
    /\ resultEl p = []
    /\ is_Some (timers p !! 1) /\ is_Some (timers p !! 2)
    /\ step plainHost (Tick 1) p = Some q
    /\ resultEl q = [nl; sp]
    /\ is_Some (timers q !! 1).
Proof.
  eexists _, _. split; [vm_compute; reflexivity|].
  split; [reflexivity|]. split; [vm_compute; eauto|]. split; [vm_compute; eauto|].
  split; [vm_compute; reflexivity|]. split; [reflexivity|]. vm_compute; eauto.
Qed.

Lemma typeResult_keeps_running_reveal_witness :
  exists t p',
    timers midReveal !! 1 = Some t
    /\ typeResult plainHost 0%float chestPain midReveal = Ok p'
    /\ timers p' !! 1 = Some t.
Proof.
  pose (t := default {| html := []; i := 0; tempDiv := [] |} (timers midReveal !! 1)).
  pose (p' := match typeResult plainHost 0%float chestPain midReveal with
              | Ok p' => p'
              | Throw _ => midReveal
              end).
  destruct (typeResult_keeps_running_reveal plainHost 0%float chestPain
              midReveal p' 1 t) as (_ & _ & _ & Hkept & _).
  - exists [], (lit "Analyze"),
      [Submit; AnalyzeSettled 0%float (Ok soreThroat); Tick 1; Tick 1].
    vm_compute. reflexivity.
  - vm_compute. reflexivity.
  - vm_compute. reflexivity.
  - exists t, p'. split; [vm_compute; reflexivity|].
    split; [vm_compute; reflexivity|exact Hkept].
Defined.

(** The turns other than a submission and its settling leave the analyze
    control and the request count alone. *)
Lemma step_other_frame (h : Host) (e : Event) (p q : Page) :
  step h e p = Some q -> e <> Submit ->
  (forall now reply, e <> AnalyzeSettled now reply) ->
  btnDisabled q = btnDisabled p /\ pendingAnalyze q = pendingAnalyze p.
Proof.
  intros Hstep Hsub Hset.
  destruct e as [|now reply|reply|n|n now reply| |reply|id]; cbn [step] in Hstep.
  - done.
  - by destruct (Hset now reply).
  - destruct (decide _); [|done]. by injection Hstep as <-.
  - destruct (historyList p !! n) as [item|]; [|done]. cbn [mbind option_bind] in Hstep.
    destruct (opens item); [|done]. by injection Hstep as <-.
  - destruct (pendingLookups p !! n) as [queryId|]; [|done].
    cbn [mbind option_bind] in Hstep. injection Hstep as <-.
    unfold loadResultById_settled.
    destruct reply as [history|e]; [|done].
    destruct (find _ history) as [record|]; [|done].
    destruct (truthy _); [|done].
    set (p0 := setPending _ _ _ _ p).
    destruct (typeResult h now (model_response record) p0) as [p1|e] eqn:Ht; [|done].
    apply typeResult_frame in Ht as (-> & -> & _). done.
  - by injection Hstep as <-.
  - destruct (decide _); [|done]. injection Hstep as <-. unfold clear_settled.
    by destruct (reply ≫= _).
  - by apply tick_frame in Hstep as (-> & -> & _).
Qed.

(** C8. From the submission of the form until its analyze request settles
    the analyze control is disabled and the form cannot be submitted
    again; the control is enabled again by the turn that settles the
    request, whatever the reply, and no other turn changes it. *)
Theorem analyze_disabled_while_in_flight (h : Host) (result label : jsstring)
    (es : list Event) (p : Page) :
  run h es (initialPage result label) = Some p ->
  pendingAnalyze p <= 1
  /\ (btnDisabled p = true <-> pendingAnalyze p = 1)
  /\ (pendingAnalyze p = 1 -> step h Submit p = None)
  /\ (pendingAnalyze p = 0 ->
      exists q, step h Submit p = Some q
                /\ btnDisabled q = true /\ pendingAnalyze q = 1)
  /\ (forall now reply q,
        step h (AnalyzeSettled now reply) p = Some q ->
        pendingAnalyze p = 1 /\ btnDisabled q = false /\ pendingAnalyze q = 0)
  /\ (forall e q,
        step h e p = Some q -> e <> Submit ->
        (forall now reply, e <> AnalyzeSettled now reply) ->
        btnDisabled q = btnDisabled p /\ pendingAnalyze q = pendingAnalyze p).
Proof.
  intros Hrun.
  assert (Hinv : oneAnalysis p).
  { eapply (run_invariant h oneAnalysis (oneAnalysis_step h)); [|exact Hrun].
    split; cbn; [lia|]. split; discriminate. }
  destruct Hinv as [Hle Hiff].
  split; [done|]. split; [done|]. split; [|split; [|split]].
  - intros H1. cbn [step]. apply Hiff in H1. by rewrite H1.
  - intros H0. cbn [step]. destruct (btnDisabled p) eqn:Hb.
    + assert (pendingAnalyze p = 1) by by apply Hiff. lia.
    + eexists. split; [reflexivity|]. cbn. by rewrite H0.
  - intros now reply q Hstep.
    assert (Hq : oneAnalysis q).
    { eapply (oneAnalysis_step h); [|exact Hstep]. by split. }
    destruct Hq as [Hqle Hqiff].
    cbn [step] in Hstep. destruct (decide _) as [Hpos|]; [|done].
    injection Hstep as <-. split; [lia|].
    assert (Hb : btnDisabled (submit_settled h now reply p) = false) by done.
    split; [done|].
    destruct (decide (pendingAnalyze (submit_settled h now reply p) = 1)) as [H1|H1];
      [|lia].
    apply Hqiff in H1. congruence.
  - intros e q. apply step_other_frame.
Qed.

Lemma analyze_disabled_while_in_flight_witness :
  exists p,
    run plainHost [Submit] (initialPage [] (lit "Analyze")) = Some p
    /\ btnDisabled p = true
    /\ step plainHost Submit p = None.
Proof.
  destruct (analyze_disabled_while_in_flight plainHost [] (lit "Analyze") [Submit]
              (submit_start (initialPage [] (lit "Analyze"))) eq_refl)
    as (_ & Hiff & Hblocked & _).
  exists (submit_start (initialPage [] (lit "Analyze"))).
  split; [reflexivity|]. split; [apply Hiff; reflexivity|apply Hblocked; reflexivity].
Defined.

(** * Further properties *)

(** ** What the renderer raises *)

Lemma Value_nested_ind (P : Value -> Prop) :
  P VUndefined -> P VNull -> (forall b, P (VBool b)) -> (forall f, P (VNum f)) ->
  (forall s, P (VStr s)) ->
  (forall elems, Forall P elems -> P (VArr elems)) ->
  (forall props, Forall (fun kv => P kv.2) props -> P (VObj props)) ->
  forall v, P v.
Proof.
  intros Hu Hn Hb Hf Hs Ha Ho. fix IH 1.
  intros [| |b|f|s|elems|props];
    [exact Hu | exact Hn | apply Hb | apply Hf | apply Hs | | ].
  - apply Ha. induction elems as [|e elems IHl]; constructor; [apply IH|exact IHl].
  - apply Ho. induction props as [|[k v] props IHl]; constructor;
      [apply IH|exact IHl].
Qed.

Section Raises.
Context (h : Host).

Lemma toStr_raises (v : Value) (e : Exn) : toStr h v = Throw e -> e = TypeError.
Proof.
  revert e. induction v as [| | b | f | s | elems IH | props _] using Value_nested_ind;
    intros e; try discriminate.
  - by destruct b.
  - cbn [toStr].
    set (each := fix each (l : list Value) : Result (list jsstring) := _).
    assert (Heach : forall e', each elems = Throw e' -> e' = TypeError).
    { clear e. induction IH as [|x l Hx _ IHl]; intros e'; [discriminate|].
      cbn [each]. destruct (nullish x).
      - rewrite bind_Ok. destruct (each l) as [ss|e0]; [discriminate|].
        intros [= <-]. by apply IHl.
      - destruct (toStr h x) as [sx|e0] eqn:Ex.
        + rewrite bind_Ok. destruct (each l) as [ss|e1]; [discriminate|].
          intros [= <-]. by apply IHl.
        + intros [= <-]. by apply Hx. }
    destruct (each elems) as [parts|e0]; [discriminate|].
    intros [= <-]. by apply Heach.
  - cbn [toStr]. destruct (hasOwn _ props); [by intros [= <-]|discriminate].
Qed.

Lemma getProp_raises (v : Value) (k : jsstring) (e : Exn) :
  getProp v k = Throw e -> e = TypeError.
Proof. destruct v; try discriminate; by intros [= <-]. Qed.

Lemma mapR_raises {A B} (f : A -> Result B) (l : list A) (e : Exn) :
  (forall x e', f x = Throw e' -> e' = TypeError) ->
  mapR f l = Throw e -> e = TypeError.
Proof.
  intros Hf. induction l as [|x l IH]; [discriminate|]. cbn [mapR].
  destruct (f x) as [y|e0] eqn:Ex.
  - rewrite bind_Ok. destruct (mapR f l) as [ys|e1]; [discriminate|].
    intros [= <-]. by apply IH.
  - intros [= <-]. by eapply Hf.
Qed.

Lemma mapJoin_raises (f : Value -> Result jsstring) (v : Value) (e : Exn) :
  (forall x e', f x = Throw e' -> e' = TypeError) ->
  mapJoin f v = Throw e -> e = TypeError.
Proof.
  intros Hf. destruct v as [| | | | |elems|]; try by intros [= <-].
  cbn [mapJoin]. destruct (mapR f elems) as [ys|e0] eqn:Em; [discriminate|].
  intros [= <-]. by eapply mapR_raises.
Qed.

Lemma callToUpperCase_raises (v : Value) (e : Exn) :
  callToUpperCase h v = Throw e -> e = TypeError.
Proof. destruct v; try discriminate; by intros [= <-]. Qed.

Lemma optToLowerCase_raises (v : Value) (e : Exn) :
  optToLowerCase h v = Throw e -> e = TypeError.
Proof. destruct v; try discriminate; by intros [= <-]. Qed.

Lemma escalationHTML_raises (data : Value) (e : Exn) :
  escalationHTML h data = Throw e -> e = TypeError.
Proof.
  unfold escalationHTML. intros H.
  destruct (getProp data (lit "escalation")) as [esc|e0] eqn:E0;
    [rewrite bind_Ok in H|injection H as <-; by eapply getProp_raises].
  destruct (truthy esc); [|discriminate].
  destruct (getProp esc (lit "level")) as [level|e1] eqn:E1;
    [rewrite bind_Ok in H|injection H as <-; by eapply getProp_raises].
  destruct (toStr h level) as [cls|e2] eqn:E2;
    [rewrite bind_Ok in H|injection H as <-; by eapply toStr_raises].
  destruct (callToUpperCase h level) as [upper|e3] eqn:E3;
    [rewrite bind_Ok in H|injection H as <-; by eapply callToUpperCase_raises].
  destruct (toStr h upper) as [tag|e4] eqn:E4;
    [rewrite bind_Ok in H|injection H as <-; by eapply toStr_raises].
  destruct (getProp esc (lit "message")) as [msg|e5] eqn:E5;
    [rewrite bind_Ok in H|injection H as <-; by eapply getProp_raises].
  destruct (toStr h msg) as [text|e6] eqn:E6;
    [discriminate|injection H as <-; by eapply toStr_raises].
Qed.

Lemma conditionHTML_raises (c : Value) (e : Exn) :
  conditionHTML h c = Throw e -> e = TypeError.
Proof.
  unfold conditionHTML. intros H.
  destruct (getProp c (lit "name")) as [name|e0] eqn:E0;
    [rewrite bind_Ok in H|injection H as <-; by eapply getProp_raises].
  destruct (toStr h name) as [nameText|e1] eqn:E1;
    [rewrite bind_Ok in H|injection H as <-; by eapply toStr_raises].
  destruct (getProp c (lit "confidence")) as [conf|e2] eqn:E2;
    [rewrite bind_Ok in H|injection H as <-; by eapply getProp_raises].
  destruct (optToLowerCase h conf) as [low|e3] eqn:E3;
    [rewrite bind_Ok in H|injection H as <-; by eapply optToLowerCase_raises].
  destruct (toStr h low) as [cls|e4] eqn:E4;
    [rewrite bind_Ok in H|injection H as <-; by eapply toStr_raises].
  destruct (toStr h conf) as [confText|e5] eqn:E5;
    [rewrite bind_Ok in H|injection H as <-; by eapply toStr_raises].
  destruct (getProp c (lit "rationale")) as [rat|e6] eqn:E6;
    [rewrite bind_Ok in H|injection H as <-; by eapply getProp_raises].
  destruct (toStr h rat) as [ratText|e7] eqn:E7;
    [discriminate|injection H as <-; by eapply toStr_raises].
Qed.

Lemma stepHTML_raises (s : Value) (e : Exn) :
  stepHTML h s = Throw e -> e = TypeError.
Proof.
  unfold stepHTML. destruct (toStr h s) as [t|e0] eqn:E0; [discriminate|].
  intros [= <-]. by eapply toStr_raises.
Qed.

Lemma localeString_raises (v : Value) (e : Exn) :
  localeString h v = Throw e -> e = TypeError.
Proof.
  unfold localeString, newDate. destruct v; try discriminate.
  - destruct (toStr h (VArr elems)) as [s|e0] eqn:E0; [discriminate|].
    intros [= <-]. by eapply toStr_raises.
  - destruct (toStr h (VObj props)) as [s|e0] eqn:E0; [discriminate|].
    intros [= <-]. by eapply toStr_raises.
Qed.

(** The renderer raises nothing but a TypeError. *)
Lemma buildResultHTML_raises (now : float) (data : Value) (e : Exn) :
  buildResultHTML h now data = Throw e -> e = TypeError.
Proof.
  unfold buildResultHTML. intros H.
  destruct (escalationHTML h data) as [esc|e0] eqn:E0;
    [rewrite bind_Ok in H|injection H as <-; by eapply escalationHTML_raises].
  destruct (conditionsHTML h data) as [cs|e1] eqn:E1;
    [rewrite bind_Ok in H|injection H as <-].
  2:{ unfold conditionsHTML in E1.
      destruct (getProp data (lit "probable_conditions")) as [pc|e2] eqn:E2;
        [rewrite bind_Ok in E1|injection E1 as <-; by eapply getProp_raises].
      eapply mapJoin_raises; [|exact E1]. apply conditionHTML_raises. }
  destruct (nextStepsHTML h data) as [ns|e1] eqn:E2;
    [rewrite bind_Ok in H|injection H as <-].
  2:{ unfold nextStepsHTML in E2.
      destruct (getProp data (lit "next_steps")) as [v|e2] eqn:E3;
        [rewrite bind_Ok in E2|injection E2 as <-; by eapply getProp_raises].
      eapply mapJoin_raises; [|exact E2]. apply stepHTML_raises. }
  destruct (getProp data (lit "disclaimer")) as [d|e3] eqn:E3;
    [rewrite bind_Ok in H|injection H as <-; by eapply getProp_raises].
  destruct (toStr h d) as [dt|e4] eqn:E4;
    [rewrite bind_Ok in H|injection H as <-; by eapply toStr_raises].
  destruct (modelName h data) as [m|e5] eqn:E5;
    [rewrite bind_Ok in H|injection H as <-].
  2:{ unfold modelName in E5.
      destruct (getProp data (lit "metadata")) as [md|e6] eqn:E6;
        [rewrite bind_Ok in E5|injection E5 as <-; by eapply getProp_raises].
      by eapply toStr_raises. }
  destruct (footerTime h now data) as [t|e6] eqn:E6; [discriminate|].
  injection H as <-. unfold footerTime in E6.
  destruct (getProp data (lit "metadata")) as [md|e7] eqn:E7;
    [rewrite bind_Ok in E6|injection E6 as <-; by eapply getProp_raises].
  by eapply localeString_raises.
Qed.

End Raises.

(** ** The renderer on replies outside the data model *)

Lemma orElse_truthy' (a b : Value) : truthy a = true -> orElse a b = a.
Proof. unfold orElse. by intros ->. Qed.

Lemma mapJoin_not_array (h : Host) (f : Value -> Result jsstring) (v : Value) :
  (forall elems, v <> VArr elems) -> mapJoin f v = Throw TypeError.
Proof. intros Hv. destruct v; try done. by destruct (Hv elems). Qed.

Lemma escalationHTML_level_not_text (h : Host) (data : Value) (banner : jsstring) :
  truthy (field "escalation" data) = true ->
  isText (field "level" (field "escalation" data)) = false ->
  escalationHTML h data <> Ok banner.
Proof.
  intros He Hl. unfold escalationHTML.
  destruct (nullish data) eqn:Hd; [by destruct data|].
  rewrite (getProp_field _ _ Hd), bind_Ok, He.
  destruct (nullish (field "escalation" data)) eqn:Hn;
    [by rewrite (nullish_falsy _ Hn) in He|].
  rewrite (getProp_field _ "level" Hn), bind_Ok.
  destruct (field "level" (field "escalation" data)) as [| |b|f|s|elems|props];
    try discriminate Hl;
    match goal with |- context [toStr h ?v] => destruct (toStr h v) end;
    cbn [mbind Result_bind callToUpperCase]; done.
Qed.

(** X1. A record with an escalation whose level is not text, or with a
    probable_conditions or next_steps value that is truthy and not an
    array, is not rendered at all: the renderer raises a TypeError,
    whatever the other fields hold. *)
Theorem buildResultHTML_malformed_raises (h : Host) (now : float) (data : Value) :
  (truthy (field "escalation" data) = true
   /\ isText (field "level" (field "escalation" data)) = false)
  \/ (truthy (field "probable_conditions" data) = true
      /\ forall elems, field "probable_conditions" data <> VArr elems)
  \/ (truthy (field "next_steps" data) = true
      /\ forall elems, field "next_steps" data <> VArr elems) ->
  buildResultHTML h now data = Throw TypeError.
Proof.
  intros Hbad.
  destruct (buildResultHTML h now data) as [markup|e] eqn:Hb;
    [exfalso|by rewrite (buildResultHTML_raises h now data e Hb)].
  unfold buildResultHTML in Hb.
  apply bind_Ok_inv in Hb as (banner & Hesc & Hb).
  apply bind_Ok_inv in Hb as (conditions & Hcs & Hb).
  apply bind_Ok_inv in Hb as (nextSteps & Hns & _).
  assert (Hd : nullish data = false).
  { destruct data; try done; discriminate Hesc. }
  destruct Hbad as [[He Hl]|[[Ht Hna]|[Ht Hna]]].
  - by eapply escalationHTML_level_not_text.
  - unfold conditionsHTML in Hcs.
    rewrite (getProp_field _ _ Hd), bind_Ok, orElse_truthy' in Hcs by done.
    by rewrite (mapJoin_not_array h) in Hcs.
  - unfold nextStepsHTML in Hns.
    rewrite (getProp_field _ _ Hd), bind_Ok, orElse_truthy' in Hns by done.
    by rewrite (mapJoin_not_array h) in Hns.
Qed.

Lemma buildResultHTML_malformed_raises_witness :
  buildResultHTML plainHost 0%float
    (obj [("disclaimer", str "Educational use only.");
          ("probable_conditions", str "Viral infection")]) = Throw TypeError.
Proof.
  apply buildResultHTML_malformed_raises. right. left.
  split; [reflexivity|]. intros elems. discriminate.
Defined.

(** The parts of the renderer, as functions of the fields they read. *)
Lemma buildResultHTML_unfold (h : Host) (now : float) (data : Value) :
  nullish data = false ->
  buildResultHTML h now data =
    (escalation ← (let esc := field "escalation" data in
                   if truthy esc then
                     level ← getProp esc (lit "level");
                     cls ← toStr h level;
                     upper ← callToUpperCase h level;
                     tag ← toStr h upper;
                     msg ← getProp esc (lit "message");
                     text ← toStr h msg;
                     Ok (alertBanner cls tag text)
                   else Ok []);
     conditions ← mapJoin (conditionHTML h)
                    (orElse (field "probable_conditions" data) (VArr []));
     nextSteps ← mapJoin (stepHTML h) (orElse (field "next_steps" data) (VArr []));
     disclaimerText ← toStr h (field "disclaimer" data);
     model ← toStr h (orElse (field "model" (field "metadata" data))
                        (VStr (lit "local")));
     time ← localeString h (orElse (field "timestamp" (field "metadata" data))
                              (VNum now));
     Ok (resultCard disclaimerText escalation conditions nextSteps model time)).
Proof.
  intros Hd.
  unfold buildResultHTML, escalationHTML, conditionsHTML, nextStepsHTML,
    modelName, footerTime.
  rewrite (getProp_field _ "escalation" Hd), (getProp_field _ "probable_conditions" Hd),
    (getProp_field _ "next_steps" Hd), (getProp_field _ "disclaimer" Hd),
    (getProp_field _ "metadata" Hd).
  reflexivity.
Qed.

(** X2. The markup depends on the five fields the renderer reads and on
    nothing else of the reply: two replies that agree on them render the
    same, whatever other keys they carry and in whatever order. *)
Theorem buildResultHTML_reads_five_fields (h : Host) (now : float)
    (data1 data2 : Value) :
  nullish data1 = nullish data2 ->
  field "escalation" data1 = field "escalation" data2 ->
  field "probable_conditions" data1 = field "probable_conditions" data2 ->
  field "next_steps" data1 = field "next_steps" data2 ->
  field "disclaimer" data1 = field "disclaimer" data2 ->
  field "metadata" data1 = field "metadata" data2 ->
  buildResultHTML h now data1 = buildResultHTML h now data2.
Proof.
  intros Hn He Hc Hs Hd Hm.
  destruct (nullish data1) eqn:H1.
  - destruct data1; try discriminate H1; destruct data2; try discriminate Hn;
      reflexivity.
  - rewrite (buildResultHTML_unfold h now data1 H1).
    rewrite (buildResultHTML_unfold h now data2) by done.
    by rewrite He, Hc, Hs, Hd, Hm.
Qed.

Lemma buildResultHTML_reads_five_fields_witness :
  buildResultHTML plainHost 0%float
    (obj [("query_id", str "q1"); ("next_steps", VArr []);
          ("disclaimer", str "Educational use only.")])
  = buildResultHTML plainHost 0%float
      (obj [("disclaimer", str "Educational use only."); ("next_steps", VArr []);
            ("timestamp", VNum 1%float)]).
Proof.
  apply buildResultHTML_reads_five_fields; reflexivity.
Defined.

(** X3. A reply that is not null and has none of the five fields, such as the
    error body of the backend or a bare string, is rendered without any
    failure as a card whose disclaimer reads undefined, with no banner, no
    condition, no next step, the model local and the time of the clock. *)
Theorem buildResultHTML_without_fields (h : Host) (now : float) (data : Value) :
  nullish data = false ->
  field "escalation" data = VUndefined ->
  field "probable_conditions" data = VUndefined ->
  field "next_steps" data = VUndefined ->
  field "disclaimer" data = VUndefined ->
  field "metadata" data = VUndefined ->
  buildResultHTML h now data =
    Ok (resultCard (lit "undefined") [] [] [] (lit "local")
          (dateToLocaleString h now)).
Proof.
  intros Hn He Hc Hs Hd Hm.
  rewrite (buildResultHTML_unfold h now data Hn), He, Hc, Hs, Hd, Hm.
  reflexivity.
Qed.

Lemma buildResultHTML_without_fields_witness :
  buildResultHTML plainHost 0%float errorBody =
    Ok (resultCard (lit "undefined") [] [] [] (lit "local")
          (lit "1/1/1970, 12:00:00 AM")).
Proof.
  apply (buildResultHTML_without_fields plainHost 0%float errorBody); reflexivity.
Defined.

(** X4. Whenever the banner part renders, it is there exactly when the
    escalation value is truthy: an escalation that is present but false,
    zero or the empty string gives no banner. *)
Theorem escalationHTML_iff_truthy (h : Host) (data : Value) (banner : jsstring) :
  escalationHTML h data = Ok banner ->
  (banner <> [] <-> truthy (field "escalation" data) = true).
Proof.
  unfold escalationHTML. intros Hb.
  destruct (nullish data) eqn:Hd; [by destruct data|].
  rewrite (getProp_field _ "escalation" Hd), bind_Ok in Hb.
  destruct (truthy (field "escalation" data)).
  - repeat (apply bind_Ok_inv in Hb as (? & _ & Hb)).
    injection Hb as <-. split; [done|]. intros _. apply alertBanner_nonempty.
  - injection Hb as <-. split; [done|discriminate].
Qed.

Lemma escalationHTML_iff_truthy_witness :
  alertBanner (lit "critical") (lit "CRITICAL") (lit "Seek emergency care") <> []
  <-> truthy (field "escalation" chestPain) = true.
Proof.
  apply (escalationHTML_iff_truthy plainHost chestPain). vm_compute. reflexivity.
Defined.

(** ** Text goes into the markup as it is *)

Lemma contains_concat (needle block : jsstring) (blocks : list jsstring) :
  block ∈ blocks -> contains needle block -> contains needle (concat blocks).
Proof.
  intros Hin. induction Hin as [block blocks|block b blocks _ IH];
    intros Hc; cbn [concat].
  - by apply contains_app_l.
  - by apply contains_app_r, IH.
Qed.

Lemma resultCard_contains (needle d b c n m t : jsstring) :
  contains needle c \/ contains needle n -> contains needle (resultCard d b c n m t).
Proof.
  unfold resultCard. intros [Hc|Hn].
  - do 4 apply contains_app_r. by apply contains_app_l, contains_line.
  - do 6 apply contains_app_r. apply contains_app_l, contains_line.
    by apply contains_app_r, contains_app_l.
Qed.

Lemma conditionBlock_contains_text (name cls confidence rationale : jsstring) :
  let block := conditionBlock name cls confidence rationale in
  contains (lit "<h3>" ++ name ++ lit "</h3>") block
  /\ contains (lit "<p>" ++ rationale ++ lit "</p>") block.
Proof.
  intros block. subst block. unfold conditionBlock.
  split; auto 10 with contains.
Qed.

(** X5. The renderer escapes nothing: for every advisory record, the name and
    the rationale of each condition and the text of each next step stand
    in the markup exactly as the reply has them, markup of their own
    included. *)
Theorem buildResultHTML_inserts_text_verbatim (h : Host) (now : float)
    (data : Value) :
  isAdvisory data = true ->
  exists markup,
    buildResultHTML h now data = Ok markup
    /\ (forall c, c ∈ entries (field "probable_conditions" data) ->
        contains (lit "<h3>" ++ textOf (field "name" c) ++ lit "</h3>") markup
        /\ contains (lit "<p>" ++ textOf (field "rationale" c) ++ lit "</p>") markup)
    /\ (forall s, s ∈ entries (field "next_steps" data) ->
        contains (lit "<li>" ++ textOf s ++ lit "</li>") markup).
Proof.
  intros Ha.
  destruct (buildResultHTML_advisory h now data Ha)
    as (banner & blocks & items & model & time
        & _ & _ & Hblocks & _ & Hitems & _ & _ & Hb).
  apply isAdvisory_fields in Ha as (Hd & _ & _ & Hc & _).
  eexists. split; [exact Hb|]. split.
  - intros c Hin. apply list_elem_of_lookup in Hin as (n & Hn).
    destruct (Forall2_lookup_l _ _ _ _ _ Hblocks Hn) as (block & Hblock & Hrender).
    assert (Hcond : isCondition c = true).
    { apply orb_true_iff in Hc as [Hc|Hc].
      - destruct (field "probable_conditions" data); try discriminate Hc;
          by apply list_elem_of_lookup_2 in Hn; try apply not_elem_of_nil in Hn.
      - destruct (field "probable_conditions" data) as [| | | | |elems|];
          try discriminate Hc.
        cbn [isSequence] in Hc. rewrite forallb_forall in Hc.
        apply Hc, list_elem_of_In. by eapply list_elem_of_lookup_2. }
    rewrite (conditionHTML_condition h c Hcond) in Hrender.
    injection Hrender as <-.
    apply list_elem_of_lookup_2 in Hblock.
    split; apply resultCard_contains; left;
      (eapply contains_concat; [exact Hblock|]); apply conditionBlock_contains_text.
  - intros s Hin. apply list_elem_of_lookup in Hin as (n & Hn).
    destruct (Forall2_lookup_l _ _ _ _ _ Hitems Hn) as (item & Hitem & ->).
    apply list_elem_of_lookup_2 in Hitem.
    apply resultCard_contains. right.
    eapply contains_concat; [exact Hitem|]. apply contains_refl.
Qed.

Lemma buildResultHTML_inserts_text_verbatim_witness :
  exists markup,
    buildResultHTML plainHost 0%float soreThroat = Ok markup
    /\ contains (lit "<li>See a doctor</li>") markup.
Proof.
  destruct (buildResultHTML_inserts_text_verbatim plainHost 0%float soreThroat eq_refl)
    as (markup & Hb & _ & Hsteps).
  exists markup. split; [exact Hb|].
  apply (Hsteps (str "See a doctor")).
  apply list_elem_of_In. vm_compute. right; right; left; reflexivity.
Defined.

(** ** Intervals under any interleaving *)

Section Intervals.
Context (h : Host).

(** What a turn of the event loop does to the intervals: nothing, or it
    starts one under the next id, or it is a firing. *)
Lemma step_timers (e : Event) (p p' : Page) :
  step h e p = Some p' ->
  ((forall id, e <> Tick id) /\ timers p' = timers p /\ nextTimer p' = nextTimer p)
  \/ ((forall id, e <> Tick id)
      /\ exists markup,
           markup <> []
           /\ timers p' = <[nextTimer p := {| html := markup; i := 0; tempDiv := [] |}]>
                            (timers p)
           /\ nextTimer p' = S (nextTimer p))
  \/ (exists id, e = Tick id /\ tick h id p = Some p').
Proof.
  destruct e as [|now reply|reply|n|n now reply| |reply|id]; cbn [step]; intros Hstep.
  - left. destruct (btnDisabled p); [done|]. by injection Hstep as <-.
  - destruct (decide _); [|done]. injection Hstep as <-. unfold submit_settled.
    destruct reply as [data|e]; cbn [mbind Result_bind]; [|by left].
    destruct (typeResult h now data p) as [p1|e] eqn:Ht; cbn [mbind Result_bind];
      [|by left].
    right. left. split; [done|].
    apply typeResult_Ok_inv in Ht as (markup & Hb & ->).
    exists markup. split; [by eapply buildResultHTML_nonempty|done].
  - left. destruct (decide _); [|done]. by injection Hstep as <-.
  - left. destruct (historyList p !! n) as [item|]; [|done].
    cbn [mbind option_bind] in Hstep.
    destruct (opens item); [|done]. by injection Hstep as <-.
  - destruct (pendingLookups p !! n) as [queryId|]; [|done].
    cbn [mbind option_bind] in Hstep. injection Hstep as <-.
    unfold loadResultById_settled.
    destruct reply as [history|e]; [|by left].
    destruct (find _ history) as [record|]; [|by left].
    destruct (truthy _); [|by left].
    set (p0 := setPending _ _ _ _ p).
    destruct (typeResult h now (model_response record) p0) as [p1|e] eqn:Ht;
      [|by left].
    right. left. split; [done|].
    apply typeResult_Ok_inv in Ht as (markup & Hb & ->).
    exists markup. split; [by eapply buildResultHTML_nonempty|done].
  - left. by injection Hstep as <-.
  - left. destruct (decide _); [|done]. injection Hstep as <-. unfold clear_settled.
    by destruct (_ ≫= _).
  - right. right. eauto.
Qed.

(** What a firing does to the intervals. *)
Lemma tick_timers (id : nat) (p p' : Page) :
  tick h id p = Some p' ->
  exists t,
    timers p !! id = Some t
    /\ nextTimer p' = nextTimer p
    /\ resultEl p' = reserialize h (take (i t) (html t))
    /\ timers p' =
         if decide (length (html t) <= S (i t)) then delete id (timers p)
         else <[id := {| html := html t; i := S (i t);
                         tempDiv := take (i t) (html t) |}]> (timers p).
Proof.
  unfold tick. destruct (timers p !! id) as [t|]; [|done].
  cbn [mbind option_bind]. intros [= <-]. exists t.
  by destruct (decide _).
Qed.

Lemma timersSound_step (e : Event) (p p' : Page) :
  timersFresh p -> timersSound p -> step h e p = Some p' -> timersSound p'.
Proof.
  intros Hf Hs Hstep id t.
  destruct (step_timers e p p' Hstep)
    as [(_ & -> & _)|[(_ & markup & Hne & -> & _)|(id' & -> & Htick)]].
  - apply Hs.
  - destruct (decide (id = nextTimer p)) as [->|Hid].
    + rewrite lookup_insert_eq. intros [= <-]. cbn.
      split; [|done]. destruct markup; [done|cbn; lia].
    + rewrite lookup_insert_ne by done. apply Hs.
  - apply tick_timers in Htick as (t' & Ht' & _ & _ & ->).
    destruct (Hs _ _ Ht') as [Hlt Htemp].
    destruct (decide (length (html t') <= S (i t'))).
    + destruct (decide (id = id')) as [->|Hid].
      * by rewrite lookup_delete_eq.
      * rewrite lookup_delete_ne by done. apply Hs.
    + destruct (decide (id = id')) as [->|Hid].
      * rewrite lookup_insert_eq. intros [= <-]. cbn. split; [lia|done].
      * rewrite lookup_insert_ne by done. apply Hs.
Qed.

Lemma reachable_sound (p : Page) :
  reachable h p -> timersFresh p /\ timersSound p.
Proof.
  intros (result & label & es & Hrun).
  eapply (run_invariant h (fun p => timersFresh p /\ timersSound p)); [| |exact Hrun].
  - intros e q q' [Hf Hs] Hstep.
    split; [by eapply timersFresh_step|by eapply timersSound_step].
  - split; intros id; cbn; [|intros t]; rewrite lookup_empty; [by intros []|done].
Qed.

(** One turn spends one firing of interval [id] when it is a firing of
    that interval, and none otherwise. *)
Lemma step_remaining (id : nat) (e : Event) (p p' : Page) :
  timersFresh p -> timersSound p -> id < nextTimer p ->
  step h e p = Some p' ->
  id < nextTimer p' /\ remaining id p' + firings id [e] = remaining id p.
Proof.
  intros Hf Hs Hid Hstep. unfold remaining.
  destruct (step_timers e p p' Hstep)
    as [(Hnt & -> & ->)|[(Hnt & markup & _ & -> & ->)|(id' & -> & Htick)]].
  - split; [done|]. destruct e; try (cbn; lia). by destruct (Hnt id0).
  - split; [lia|]. rewrite lookup_insert_ne by lia.
    destruct e; try (cbn; lia). by destruct (Hnt id0).
  - apply tick_timers in Htick as (t & Ht & -> & _ & ->). split; [done|].
    cbn [firings]. destruct (decide (id' = id)) as [->|Hne].
    + rewrite Ht. destruct (Hs _ _ Ht) as [Hlt _].
      destruct (decide (length (html t) <= S (i t))).
      * rewrite lookup_delete_eq. lia.
      * rewrite lookup_insert_eq. cbn. lia.
    + destruct (decide (length (html t) <= S (i t))).
      * rewrite lookup_delete_ne by done. destruct (timers p !! id); lia.
      * rewrite lookup_insert_ne by done. destruct (timers p !! id); lia.
Qed.

Lemma run_remaining (id : nat) (es : list Event) :
  forall p q,
  timersFresh p -> timersSound p -> id < nextTimer p ->
  run h es p = Some q ->
  timersSound q /\ remaining id q + firings id es = remaining id p.
Proof.
  induction es as [|e es IH]; intros p q Hf Hs Hid Hrun.
  - injection Hrun as <-. split; [done|]. cbn. lia.
  - cbn [run] in Hrun. destruct (step h e p) as [p'|] eqn:He; [|done].
    cbn [mbind option_bind] in Hrun.
    destruct (step_remaining id e p p' Hf Hs Hid He) as [Hid' Hrem].
    destruct (IH p' q) as [Hq Hrest];
      [by eapply timersFresh_step|by eapply timersSound_step|done|done|].
    split; [done|].
    assert (firings id (e :: es) = firings id [e] + firings id es) as ->.
    { destruct e; cbn; lia. }
    lia.
Qed.

End Intervals.

(** X6. In every page the event loop can reach, each active interval has a
    counter below the length of its markup, its scratch element holds the
    prefix it showed last, and its id is below the next id to be handed
    out. *)
Theorem reachable_intervals_sound (h : Host) (p : Page) (id : nat) (t : Timer) :
  reachable h p -> timers p !! id = Some t ->
  i t < length (html t)
  /\ tempDiv t = take (pred (i t)) (html t)
  /\ id < nextTimer p.
Proof.
  intros [Hf Hs]%reachable_sound Ht.
  destruct (Hs id t Ht) as [Hlt Htemp].
  split; [done|]. split; [done|]. apply Hf. eauto.
Qed.

Lemma reachable_intervals_sound_witness :
  exists t, timers midReveal !! 1 = Some t /\ i t < length (html t).
Proof.
  pose (t := default {| html := []; i := 0; tempDiv := [] |} (timers midReveal !! 1)).
  destruct (reachable_intervals_sound plainHost midReveal 1 t) as (Hlt & _).
  - exists [], (lit "Analyze"),
      [Submit; AnalyzeSettled 0%float (Ok soreThroat); Tick 1; Tick 1].
    vm_compute. reflexivity.
  - vm_compute. reflexivity.
  - exists t. split; [vm_compute; reflexivity|exact Hlt].
Defined.

(** X7. Whatever else happens on the page in between, an interval fires as
    often as its markup has units left and no more: in any run from a
    reachable page, the firings of an active interval and the firings it
    has left afterwards add up to the units it had left before. *)
Theorem interval_firings_bounded (h : Host) (p q : Page) (id : nat) (t : Timer)
    (es : list Event) :
  reachable h p -> timers p !! id = Some t ->
  run h es p = Some q ->
  remaining id q + firings id es = length (html t) - i t
  /\ (timers q !! id = None -> firings id es = length (html t) - i t).
Proof.
  intros Hreach Ht Hrun.
  destruct (reachable_sound h p Hreach) as [Hf Hs].
  assert (Hid : id < nextTimer p) by (apply Hf; eauto).
  destruct (run_remaining h id es p q Hf Hs Hid Hrun) as [_ Hrem].
  unfold remaining in Hrem at 2. rewrite Ht in Hrem.
  split; [done|]. intros Hnone. unfold remaining in Hrem. rewrite Hnone in Hrem.
  lia.
Qed.

Lemma interval_firings_bounded_witness :
  exists t q,
    timers midReveal !! 1 = Some t
    /\ run plainHost [Tick 1; Submit; Tick 1] midReveal = Some q
    /\ remaining 1 q + 2 = length (html t) - 2.
Proof.
  pose (t := default {| html := []; i := 0; tempDiv := [] |} (timers midReveal !! 1)).
  pose (q := default midReveal (run plainHost [Tick 1; Submit; Tick 1] midReveal)).
  destruct (interval_firings_bounded plainHost midReveal q 1 t [Tick 1; Submit; Tick 1])
    as (Hsum & _).
  - exists [], (lit "Analyze"),
      [Submit; AnalyzeSettled 0%float (Ok soreThroat); Tick 1; Tick 1].
    vm_compute. reflexivity.
  - vm_compute. reflexivity.
  - vm_compute. reflexivity.
  - exists t, q. split; [vm_compute; reflexivity|].
    split; [vm_compute; reflexivity|]. exact Hsum.
Defined.

(** ** The history list and the lookup *)

Section History.
Context (h : Host).

Lemma mapR_Throw_elem {A B} (f : A -> Result B) (l : list A) (x : A) (e : Exn) :
  x ∈ l -> f x = Throw e -> exists e', mapR f l = Throw e'.
Proof.
  intros Hin Hx. induction Hin as [x l|x y l _ IH]; cbn [mapR].
  - rewrite Hx. eauto.
  - destruct (f y) as [b|e0]; [|eauto]. rewrite bind_Ok.
    destruct (IH Hx) as (e' & ->). eauto.
Qed.

Lemma historyItems_instants (history : list HistoryRecord) :
  Forall (fun r => isInstant (timestamp r) = true) history ->
  exists items,
    mapR (historyItem h) history = Ok items
    /\ (fun item => (textContent item, opens item)) <$> items
       = (fun r => (preview (symptoms r), Some (query_id r))) <$> history.
Proof.
  induction 1 as [|r history Hr _ (items & Hitems & Heq)]; [by exists []|].
  destruct (historyItem_instant h r Hr) as (when & Hi).
  eexists. cbn [mapR]. rewrite Hi, bind_Ok, Hitems, bind_Ok.
  split; [reflexivity|]. cbn. by rewrite Heq.
Qed.

Lemma find_first {A} (f : A -> bool) (before after : list A) (x : A) :
  Forall (fun y => f y = false) before -> f x = true ->
  find f (before ++ x :: after) = Some x.
Proof.
  induction 1 as [|y before Hy _ IH]; intros Hx; cbn [find app].
  - by rewrite Hx.
  - rewrite Hy. by apply IH.
Qed.

End History.

(** X9. A history reply that is not empty becomes a list with one item per
    entry, in the order of the reply, each showing the preview of its
    entry and opening the query_id of its entry. *)
Theorem loadHistory_items_follow_reply (h : Host) (history : list HistoryRecord)
    (p : Page) :
  history <> [] ->
  Forall (fun r => isInstant (timestamp r) = true) history ->
  let items := historyList (loadHistory_settled h (Ok history) p) in
  length items = length history
  /\ (fun item => (textContent item, opens item)) <$> items
     = (fun r => (preview (symptoms r), Some (query_id r))) <$> history.
Proof.
  intros Hne Hall items.
  destruct (historyItems_instants h history Hall) as (items' & Hitems & Heq).
  assert (items = items') as ->.
  { subst items. unfold loadHistory_settled. cbn [historyList setHistoryList].
    destruct history; [done|]. by rewrite Hitems. }
  split; [|done].
  apply (f_equal length) in Heq. by rewrite !length_fmap in Heq.
Qed.

Lemma loadHistory_items_follow_reply_witness :
  length (historyList (loadHistory_settled plainHost (Ok sampleHistory)
                         (initialPage [] (lit "Analyze")))) = 2.
Proof.
  destruct (loadHistory_items_follow_reply plainHost sampleHistory
              (initialPage [] (lit "Analyze"))) as [Hlen _].
  - discriminate.
  - repeat constructor.
  - exact Hlen.
Defined.

(** X10. One entry whose timestamp cannot be turned into a date fails the
    whole list: the sidebar shows the failure item alone, and none of the
    entries that did render. *)
Theorem loadHistory_all_or_nothing (h : Host) (history : list HistoryRecord)
    (r : HistoryRecord) (e : Exn) (p : Page) :
  r ∈ history -> localeString h (timestamp r) = Throw e ->
  historyList (loadHistory_settled h (Ok history) p) = [failedItem].
Proof.
  intros Hin Hr.
  assert (Hitem : historyItem h r = Throw e).
  { unfold historyItem. by rewrite Hr. }
  destruct (mapR_Throw_elem (historyItem h) history r e Hin Hitem) as (e' & Hm).
  unfold loadHistory_settled. cbn [historyList setHistoryList].
  destruct history; [by apply not_elem_of_nil in Hin|]. by rewrite Hm.
Qed.

Lemma loadHistory_all_or_nothing_witness :
  historyList (loadHistory_settled plainHost (Ok (sampleHistory ++ [badTimestamp]))
                 (initialPage [] (lit "Analyze"))) = [failedItem].
Proof.
  apply (loadHistory_all_or_nothing plainHost (sampleHistory ++ [badTimestamp])
           badTimestamp TypeError).
  - apply list_elem_of_In. vm_compute. right; right; left; reflexivity.
  - reflexivity.
Defined.

(** X11. The lookup takes the first entry of the reply whose query_id is
    strictly equal to the one asked for: when that entry has a saved
    response that renders, the display is emptied and an interval starts
    on the markup of that response, under the next id. *)
Theorem loadResultById_reveals_first_match (h : Host) (now : float)
    (queryId : Value) (before after : list HistoryRecord) (r : HistoryRecord)
    (markup : jsstring) (p : Page) :
  Forall (fun r' => strictEq (query_id r') queryId = false) before ->
  strictEq (query_id r) queryId = true ->
  truthy (model_response r) = true ->
  buildResultHTML h now (model_response r) = Ok markup ->
  let p' := loadResultById_settled h now queryId (Ok (before ++ r :: after)) p in
  resultEl p' = []
  /\ timers p' = <[nextTimer p := {| html := markup; i := 0; tempDiv := [] |}]>
                   (timers p)
  /\ nextTimer p' = S (nextTimer p).
Proof.
  intros Hbefore Hr Ht Hb p'. subst p'. unfold loadResultById_settled.
  rewrite (find_first _ before after r Hbefore Hr), Ht.
  unfold typeResult. rewrite Hb, bind_Ok. done.
Qed.

Lemma loadResultById_reveals_first_match_witness :
  resultEl (loadResultById_settled plainHost 0%float (str "q1") (Ok sampleHistory)
              (setResult noSavedResponse (initialPage [] (lit "Analyze")))) = [].
Proof.
  pose (markup := match buildResultHTML plainHost 0%float soreThroat with
                  | Ok markup => markup
                  | Throw _ => []
                  end).
  destruct (loadResultById_reveals_first_match plainHost 0%float (str "q1") []
              [{| query_id := str "q2";
                  symptoms := lit "chest pain and shortness of breath since this morning";
                  timestamp := VNum 172800000%float; model_response := VNull |}]
              {| query_id := str "q1"; symptoms := lit "sore throat and headache";
                 timestamp := VNum 86400000%float; model_response := soreThroat |}
              markup
              (setResult noSavedResponse (initialPage [] (lit "Analyze"))))
    as (Hres & _).
  - constructor.
  - reflexivity.
  - reflexivity.
  - vm_compute. reflexivity.
  - exact Hres.
Defined.

(** X12. A lookup that finds its entry but cannot render the saved
    response shows the message the engine gives the TypeError raised on
    that response, and starts no interval; a lookup whose history request
    is rejected shows the message of the rejection, and starts none
    either. *)
Theorem loadResultById_failure_shows_message (h : Host) (now : float)
    (queryId : Value) (history : list HistoryRecord) (r : HistoryRecord)
    (e : Exn) (p : Page) :
  find (fun r => strictEq (query_id r) queryId) history = Some r ->
  truthy (model_response r) = true ->
  buildResultHTML h now (model_response r) = Throw e ->
  let p' := loadResultById_settled h now queryId (Ok history) p in
  resultEl p' = errorMarkup (typeErrorMessage h (model_response r))
  /\ timers p' = timers p /\ nextTimer p' = nextTimer p
  /\ forall m,
       let p'' := loadResultById_settled h now queryId (Throw (Rejected m)) p in
       resultEl p'' = errorMarkup m
       /\ timers p'' = timers p /\ nextTimer p'' = nextTimer p.
Proof.
  intros Hfind Ht Hb p'. subst p'. unfold loadResultById_settled.
  rewrite Hfind, Ht. unfold typeResult. rewrite Hb. cbn [mbind Result_bind].
  by rewrite (buildResultHTML_raises h now _ e Hb).
Qed.

Lemma loadResultById_failure_shows_message_witness :
  resultEl (loadResultById_settled plainHost 0%float (str "q4")
              (Ok [ {| query_id := str "q4"; symptoms := lit "cough";
                       timestamp := VNum 0%float;
                       model_response := obj [("escalation", obj [])] |} ])
              (initialPage [] (lit "Analyze")))
  = errorMarkup (lit "TypeError").
Proof.
  destruct (loadResultById_failure_shows_message plainHost 0%float (str "q4")
              [ {| query_id := str "q4"; symptoms := lit "cough";
                   timestamp := VNum 0%float;
                   model_response := obj [("escalation", obj [])] |} ]
              {| query_id := str "q4"; symptoms := lit "cough";
                 timestamp := VNum 0%float;
                 model_response := obj [("escalation", obj [])] |}
              TypeError (initialPage [] (lit "Analyze")))
    as (Hshown & _).
  - reflexivity.
  - reflexivity.
  - reflexivity.
  - exact Hshown.
Defined.

(** X13. From the history reply to the reveal: when the list has been built
    from a reply, the n-th item is clicked and the lookup gets the same
    reply, the response of the n-th entry is the one revealed, provided no
    earlier entry has the same query_id and the query_id equals itself. *)
Theorem history_click_reveals_entry (h : Host) (now : float)
    (history : list HistoryRecord) (p : Page) (n : nat) (r : HistoryRecord)
    (markup : jsstring) :
  0 < pendingHistory p ->
  Forall (fun r => isInstant (timestamp r) = true) history ->
  history !! n = Some r ->
  (forall m r', m < n -> history !! m = Some r' ->
                strictEq (query_id r') (query_id r) = false) ->
  strictEq (query_id r) (query_id r) = true ->
  truthy (model_response r) = true ->
  buildResultHTML h now (model_response r) = Ok markup ->
  exists q,
    run h [HistorySettled (Ok history); ItemClick n;
           LookupSettled (length (pendingLookups p)) now (Ok history)] p = Some q
    /\ resultEl q = []
    /\ timers q = <[nextTimer p := {| html := markup; i := 0; tempDiv := [] |}]>
                    (timers p)
    /\ pendingLookups q = pendingLookups p.
Proof.
  intros Hpending Hall Hn Hfirst Hself Ht Hb.
  destruct (historyItems_instants h history Hall) as (items & Hitems & Heq).
  assert (Hitem : exists item, items !! n = Some item
                               /\ opens item = Some (query_id r)).
  { apply (f_equal (fun l => l !! n)) in Heq.
    rewrite !list_lookup_fmap, Hn in Heq. cbn in Heq.
    destruct (items !! n) as [item|]; [|done].
    injection Heq as _ Ho. eauto. }
  destruct Hitem as (item & Hitem & Hopens).
  assert (Hfind : find (fun r' => strictEq (query_id r') (query_id r)) history
                  = Some r).
  { rewrite <- (take_drop_middle history n r Hn).
    apply find_first; [|done]. apply Forall_forall. intros r' Hr'.
    apply list_elem_of_lookup in Hr' as (m & Hm).
    assert (m < n).
    { apply lookup_lt_Some in Hm. rewrite length_take in Hm. lia. }
    apply (Hfirst m); [done|]. by rewrite lookup_take_lt in Hm. }
  eexists. cbn [run step]. rewrite decide_True by done.
  cbn [mbind option_bind].
  replace (historyList (loadHistory_settled h (Ok history) p)) with items.
  2:{ unfold loadHistory_settled. cbn [historyList setHistoryList].
      destruct history; [done|]. by rewrite Hitems. }
  rewrite Hitem. cbn [mbind option_bind]. rewrite Hopens. cbn [mbind option_bind].
  cbn [pendingLookups setPending loadHistory_settled setHistoryList].
  rewrite list_lookup_middle by done. cbn [mbind option_bind].
  split; [reflexivity|].
  unfold loadResultById_settled. rewrite Hfind, Ht.
  unfold typeResult. rewrite Hb, bind_Ok.
  cbn. split; [done|]. split; [done|].
  rewrite (delete_middle (pendingLookups p) [] (query_id r)).
  apply app_nil_r.
Qed.

Lemma history_click_reveals_entry_witness :
  exists q,
    run plainHost [HistorySettled (Ok sampleHistory); ItemClick 0;
                   LookupSettled 0 0%float (Ok sampleHistory)]
      (initialPage [] (lit "Analyze")) = Some q
    /\ resultEl q = [].
Proof.
  pose (markup := match buildResultHTML plainHost 0%float soreThroat with
                  | Ok markup => markup
                  | Throw _ => []
                  end).
  destruct (history_click_reveals_entry plainHost 0%float sampleHistory
              (initialPage [] (lit "Analyze")) 0
              {| query_id := str "q1"; symptoms := lit "sore throat and headache";
                 timestamp := VNum 86400000%float; model_response := soreThroat |}
              markup)
    as (q & Hrun & Hres & _).
  - cbn. lia.
  - repeat constructor.
  - reflexivity.
  - intros m r' Hm. lia.
  - reflexivity.
  - reflexivity.
  - vm_compute. reflexivity.
  - exists q. split; [exact Hrun|exact Hres].
Defined.

(** ** The submit handler *)

(** X14. However the analyze request ends, the control is enabled again
    under its label and the history list is left as it is.  A reply that
    renders empties the display, starts an interval on its markup and
    asks for the history again.  A rejected request shows the message of
    the rejection, a reply that does not render shows the message the
    engine gives the TypeError raised on that reply; neither starts an
    interval nor asks for the history. *)
Theorem submit_settled_outcomes (h : Host) (now : float) (reply : Result Value)
    (p : Page) :
  let q := submit_settled h now reply p in
  btnDisabled q = false /\ btnText q = lit "Analyze"
  /\ pendingAnalyze q = pred (pendingAnalyze p)
  /\ historyList q = historyList p
  /\ (forall data markup,
        reply = Ok data -> buildResultHTML h now data = Ok markup ->
        resultEl q = []
        /\ timers q = <[nextTimer p := {| html := markup; i := 0; tempDiv := [] |}]>
                        (timers p)
        /\ pendingHistory q = S (pendingHistory p))
  /\ (forall e,
        reply = Throw e ->
        timers q = timers p /\ pendingHistory q = pendingHistory p
        /\ forall m, e = Rejected m -> resultEl q = errorMarkup m)
  /\ (forall data e,
        reply = Ok data -> buildResultHTML h now data = Throw e ->
        resultEl q = errorMarkup (typeErrorMessage h data)
        /\ timers q = timers p /\ pendingHistory q = pendingHistory p).
Proof.
  intros q. subst q. unfold submit_settled.
  destruct reply as [data|e].
  - unfold typeResult.
    destruct (buildResultHTML h now data) as [markup|e] eqn:Hb;
      cbn [mbind Result_bind].
    + do 4 (split; [done|]). split; [|split].
      * intros data' markup' [= <-]. rewrite Hb. by intros [= <-].
      * intros e' Heq. discriminate Heq.
      * intros data' e' [= <-]. rewrite Hb. discriminate.
    + pose proof (buildResultHTML_raises h now data e Hb) as ->.
      do 4 (split; [done|]). split; [|split].
      * intros data' markup' [= <-]. rewrite Hb. discriminate.
      * intros e' Heq. discriminate Heq.
      * by intros data' e' [= <-] _.
  - do 4 (split; [done|]). split; [|split].
    + intros data' markup' Heq. discriminate Heq.
    + intros e' [= <-]. split; [done|]. split; [done|]. by intros m ->.
    + intros data' e' Heq. discriminate Heq.
Qed.

(** ** The preview *)

(** X15. The preview is never longer than 53 units, starts with the first 50
    units of the symptoms, and is its own preview. *)
Theorem preview_bounded (s : jsstring) :
  length (preview s) <= 53
  /\ take 50 s `prefix_of` preview s
  /\ preview (preview s) = preview s.
Proof.
  unfold preview. destruct (decide (50 < length s)) as [Hlong|Hshort].
  - assert (Hlen : length (take 50 s ++ lit "...") = 53).
    { rewrite length_app, length_take.
      change (length (lit "...")) with 3. lia. }
    split; [lia|]. split; [by eexists|].
    rewrite decide_True by lia.
    by rewrite take_app_le, take_take by (rewrite length_take; lia).
  - split; [lia|]. split; [apply prefix_take|].
    by rewrite decide_False.
Qed.

(** ** The clear button *)

(** X16. The settling of the delete request touches neither the display, nor
    the intervals, nor the list on screen, nor the analyze control.  It
    asks for the history again when the reply is an object whose message
    is text or missing; a rejected request or a null reply asks for
    nothing. *)
Theorem clear_settled_effects (h : Host) (reply : Result Value) (p : Page) :
  let q := clear_settled h reply p in
  resultEl q = resultEl p /\ timers q = timers p
  /\ historyList q = historyList p /\ btnDisabled q = btnDisabled p
  /\ pendingClear q = pred (pendingClear p)
  /\ (forall e, reply = Throw e -> pendingHistory q = pendingHistory p)
  /\ (forall data, reply = Ok data -> nullish data = true ->
        pendingHistory q = pendingHistory p)
  /\ (forall data, reply = Ok data -> nullish data = false ->
        optional isText (field "message" data) = true ->
        pendingHistory q = S (pendingHistory p)).
Proof.
  intros q. subst q. unfold clear_settled.
  destruct reply as [data|e]; cbn [mbind Result_bind].
  - destruct (nullish data) eqn:Hd.
    + assert (getProp data (lit "message") = Throw TypeError) as ->
        by by destruct data.
      cbn [mbind Result_bind]. repeat split; try done.
      intros data' [= <-]. by rewrite Hd.
    + rewrite (getProp_field _ "message" Hd), bind_Ok.
      destruct (toStr h _) eqn:Hs; repeat split; try done.
      all: intros data' [= <-]; try by rewrite Hd.
      intros _ Hm. exfalso. apply orb_true_iff in Hm as [Hm|Hm].
      * rewrite orElse_falsy in Hs by by apply nullish_falsy. done.
      * destruct (field "message" data) as [| | | |s| |]; try done.
        unfold orElse in Hs. by destruct (truthy (VStr s)).
  - repeat split; try done; by intros data [= <-].
Qed.

(** ** The theme and the sidebar *)

Lemma chromeRun_snoc (es : list ChromeEvent) (e : ChromeEvent) (c : Chrome) :
  chromeRun (es ++ [e]) c = chromeStep e (chromeRun es c).
Proof. unfold chromeRun. by rewrite foldl_snoc. Qed.

(** X17. Once the theme toggle has been clicked, whatever else is clicked, the
    text of the toggle and the stored theme say what the page shows: sun
    and dark on a dark page, moon and light on a light one. *)
Theorem theme_follows_clicks (es : list ChromeEvent) (c : Chrome) :
  ThemeClick ∈ es ->
  let c' := chromeRun es c in
  themeText c' = (if bodyDark c' then sun else moon)
  /\ storedTheme c' = Some (if bodyDark c' then lit "dark" else lit "light").
Proof.
  induction es as [|e es IH] using rev_ind; intros Hin c'.
  - by apply not_elem_of_nil in Hin.
  - subst c'. rewrite chromeRun_snoc.
    destruct e; cbn; try done;
      (apply elem_of_app in Hin as [Hin|Hin];
       [by apply IH|apply list_elem_of_singleton in Hin; discriminate Hin]).
Qed.

Lemma theme_follows_clicks_witness :
  storedTheme (chromeRun [ThemeClick; HistoryClick; ThemeClick; ThemeClick] lightDocument)
  = Some (lit "dark").
Proof.
  destruct (theme_follows_clicks [ThemeClick; HistoryClick; ThemeClick; ThemeClick]
              lightDocument) as [_ Hstored].
  - apply list_elem_of_In. left. reflexivity.
  - exact Hstored.
Defined.

(** X18. The theme survives a reload when the document is served light: after
    a click on the toggle, the page loaded anew with the storage of the
    visit is dark exactly when the page was. *)
Theorem theme_survives_reload (document c : Chrome) :
  bodyDark document = false ->
  let c' := themeToggle_click c in
  bodyDark (reload document c') = bodyDark c'
  /\ storedTheme (reload document c') = storedTheme c'
  /\ (bodyDark c' = true -> themeText (reload document c') = sun)
  /\ (bodyDark c' = false -> themeText (reload document c') = themeText document).
Proof.
  intros Hlight c'. subst c'. unfold reload, restoreTheme, themeToggle_click.
  cbn [storedTheme bodyDark]. destruct (bodyDark c); cbn; by rewrite ?Hlight.
Qed.

Lemma theme_survives_reload_witness :
  bodyDark (reload lightDocument (themeToggle_click lightDocument)) = true.
Proof.
  destruct (theme_survives_reload lightDocument lightDocument eq_refl) as [Hdark _].
  exact Hdark.
Defined.

(** X19. After any click on the history button, on the overlay or on a history
    item the overlay is displayed exactly when the sidebar is shown, and
    that stays so whatever is clicked next. *)
Theorem overlay_follows_sidebar (es : list ChromeEvent) (c : Chrome) :
  overlayMatches c \/ (exists e, e ∈ es /\ e <> ThemeClick) ->
  overlayMatches (chromeRun es c).
Proof.
  unfold overlayMatches.
  induction es as [|e es IH] using rev_ind; intros Hc.
  - destruct Hc as [Hc|(e & Hin & _)]; [done|by apply not_elem_of_nil in Hin].
  - rewrite chromeRun_snoc. destruct e; cbn; try done.
    apply IH. destruct Hc as [Hc|(e & Hin & Hne)]; [by left|right].
    apply elem_of_app in Hin as [Hin|Hin]; [eauto|].
    by apply list_elem_of_singleton in Hin.
Qed.

Lemma overlay_follows_sidebar_witness :
  overlayDisplay (chromeRun [HistoryClick; ThemeClick] lightDocument) = lit "block".
Proof.
  apply (overlay_follows_sidebar [HistoryClick; ThemeClick] lightDocument).
  right. exists HistoryClick.
  split; [apply list_elem_of_In; left; reflexivity|discriminate].
Defined.

(** ** The analyze request *)

Lemma trimStart_all (s : jsstring) :
  forallb isWhiteSpace s = true -> trimStart s = [].
Proof.
  induction s as [|c s IH]; [done|]. cbn [forallb trimStart].
  intros [Hc Hs]%andb_true_iff. rewrite Hc. by apply IH.
Qed.

Lemma trimStart_head (s : jsstring) (c : N) (rest : jsstring) :
  trimStart s = c :: rest -> isWhiteSpace c = false.
Proof.
  induction s as [|c' s IH]; [done|]. cbn [trimStart].
  destruct (isWhiteSpace c') eqn:Hc'; [exact IH|]. by intros [= <- _].
Qed.

Lemma trimStart_snoc (s : jsstring) (c : N) :
  isWhiteSpace c = false -> trimStart (s ++ [c]) = trimStart s ++ [c].
Proof.
  intros Hc. induction s as [|c' s IH]; cbn [trimStart app].
  - by rewrite Hc.
  - by destruct (isWhiteSpace c').
Qed.

Lemma trimStart_idemp (s : jsstring) : trimStart (trimStart s) = trimStart s.
Proof.
  induction s as [|c s IH]; [done|]. cbn [trimStart].
  destruct (isWhiteSpace c) eqn:Hc; [exact IH|]. cbn [trimStart]. by rewrite Hc.
Qed.

Lemma trimEnd_cons (c : N) (s : jsstring) :
  isWhiteSpace c = false -> trimEnd (c :: s) = c :: trimEnd s.
Proof.
  intros Hc. unfold trimEnd.
  by rewrite reverse_cons, trimStart_snoc, reverse_snoc.
Qed.

Lemma trim_idemp (s : jsstring) : trim (trim s) = trim s.
Proof.
  unfold trim. destruct (trimStart s) as [|c rest] eqn:Hs; [done|].
  pose proof (trimStart_head s c rest Hs) as Hc.
  rewrite (trimEnd_cons c rest Hc). cbn [trimStart]. rewrite Hc.
  rewrite <- (trimEnd_cons c rest Hc). unfold trimEnd.
  by rewrite reverse_involutive, trimStart_idemp.
Qed.

(** X20. What the submit handler sends: the symptoms trimmed once and for all,
    so an entry of nothing but white space goes out as the empty string;
    the age as the text of its field, or null when the field is empty;
    the state of the check box. *)
Theorem analyzeRequest_sends (symptoms age : jsstring) (pregnant : bool) :
  let request := analyzeRequest symptoms age pregnant in
  field "symptoms" request = VStr (trim symptoms)
  /\ trim (trim symptoms) = trim symptoms
  /\ (forallb isWhiteSpace symptoms = true -> field "symptoms" request = VStr [])
  /\ field "age" request = (if decide (age = []) then VNull else VStr age)
  /\ field "pregnant" request = VBool pregnant.
Proof.
  intros request. subst request.
  split; [reflexivity|]. split; [apply trim_idemp|]. split; [|split].
  - intros Hws. change (field "symptoms" (analyzeRequest symptoms age pregnant))
      with (VStr (trim symptoms)).
    unfold trim. by rewrite (trimStart_all symptoms Hws).
  - change (field "age" (analyzeRequest symptoms age pregnant))
      with (orElse (VStr age) VNull).
    unfold orElse. cbn [truthy]. by destruct age.
  - reflexivity.
Qed.

(** ** The sidebar list is never blank *)

(** X21. Once a history reply has settled the list holds at least one item:
    the items of the reply, or the no-queries item for an empty reply, or
    the failure item for a rejected request. *)
Theorem loadHistory_never_blank (h : Host) (reply : Result (list HistoryRecord))
    (p : Page) :
  let items := historyList (loadHistory_settled h reply p) in
  items <> []
  /\ (reply = Ok [] -> items = [noQueriesItem])
  /\ (forall e, reply = Throw e -> items = [failedItem])
  /\ (forall item, item ∈ items -> item <> noQueriesItem -> item <> failedItem ->
      exists r history, reply = Ok history /\ r ∈ history
                        /\ historyItem h r = Ok item).
Proof.
  intros items. subst items. unfold loadHistory_settled.
  cbn [historyList setHistoryList].
  destruct reply as [[|r history]|e].
  - split; [done|]. split; [done|]. split; [done|].
    intros item ->%list_elem_of_singleton. done.
  - destruct (mapR (historyItem h) (r :: history)) as [items|e] eqn:Hm.
    + split.
      { apply mapR_Forall2, Forall2_length in Hm. by destruct items. }
      split; [done|]. split; [done|].
      intros item Hin _ _. apply list_elem_of_lookup in Hin as (n & Hn).
      apply mapR_Forall2 in Hm.
      destruct (Forall2_lookup_r _ _ _ _ _ Hm Hn) as (r' & Hr' & Hitem).
      exists r', (r :: history). split; [done|].
      split; [by eapply list_elem_of_lookup_2|done].
    + split; [done|]. split; [done|]. split; [done|].
      intros item ->%list_elem_of_singleton. done.
  - split; [done|]. split; [done|]. split; [by intros e' _|].
    intros item ->%list_elem_of_singleton. done.
Qed.
